(** * signac-driven-fbpic: run scripts and post-processing, embedded in Rocq

    The repository holds two FBPIC input scripts
    ([signac/src/lwfa_script.py], [calder/experiment_2012/calder_experiment.py])
    and one analysis notebook script ([jupyter/extract_energy_histogram.py]).

    Conventions of the embedding.
    - A Python [float] is an exact rational of [Q]; Python's scalar division
      raises [ZeroDivisionError] on a zero divisor.  Rounding and overflow of
      binary64 are outside the model.
    - An element of a numpy [float64] array is a [Float64.t]: an exact
      rational, or one of the IEEE values inf, -inf, nan that numpy's
      element-wise division yields on a zero divisor (numpy warns, it does not
      raise).  Signed zeros are not distinguished.
    - The FBPIC engine is an opaque collaborator: every call the scripts issue
      to it is recorded, in order, in a trace of [call]s.  A call is recorded
      as returning; when the engine raises, the script stops there, and the
      calls it has issued are a prefix of the trace given here.
    - The step count of [lwfa_script.py] is the integer part of a binary64
      quotient, which the rationals do not reproduce; module [Binary64]
      computes it on primitive floats. *)

From Stdlib Require Import ZArith QArith Qround Qabs Lqa Lia List Bool.
From Stdlib Require Import Sorted Permutation.
From Stdlib Require Import PrimFloat SpecFloat FloatOps.
Import ListNotations.

Local Open Scope Q_scope.

(** ** Python scalars *)

Inductive exn := ZeroDivisionError | IndexError | ValueError | OverflowError.

Inductive result (A : Type) :=
| Ok (a : A)
| Raise (e : exn).
Arguments Ok {A} a.
Arguments Raise {A} e.

Definition Qltb (x y : Q) : bool := negb (Qle_bool y x).

(** [x / y] on Python floats (and ints promoted to float). *)
Definition py_div (x y : Q) : result Q :=
  if Qeq_bool y 0 then Raise ZeroDivisionError else Ok (x / y).

(** [int(x)] on a Python float: the fractional part is discarded, towards
    zero. *)
Definition py_int (x : Q) : Z := Z.quot (Qnum x) (Zpos (Qden x)).

(** Python objects used as flags.  [x is False] holds for the object [False]
    only; [if x:] tests truthiness. *)
Inductive pyobj := PyBool (b : bool) | PyInt (n : Z) | PyNone.

Definition is_False (x : pyobj) : bool :=
  match x with PyBool false => true | _ => false end.

Definition truthy (x : pyobj) : bool :=
  match x with
  | PyBool b => b
  | PyInt n => negb (Z.eqb n 0)
  | PyNone => false
  end.

(** [range(a, b)] *)
Definition py_range (a b : Z) : list Z :=
  map (fun k => (a + Z.of_nat k)%Z) (seq 0 (Z.to_nat (b - a))).

(** ** numpy float64 elements and arrays *)

Module Float64.

Inductive t := Finite (q : Q) | PosInf | NegInf | NaN.

Definition is_finite (x : t) : bool :=
  match x with Finite _ => true | _ => false end.

(** [x - c] for a finite scalar [c] *)
Definition sub (x : t) (c : Q) : t :=
  match x with
  | Finite q => Finite (q - c)
  | other => other
  end.

(** [x / c] for a finite scalar [c]; a zero divisor gives inf, -inf or nan *)
Definition div (x : t) (c : Q) : t :=
  match x with
  | Finite q =>
      if Qeq_bool c 0 then
        if Qltb 0 q then PosInf else if Qltb q 0 then NegInf else NaN
      else Finite (q / c)
  | PosInf => if Qltb c 0 then NegInf else PosInf
  | NegInf => if Qltb c 0 then PosInf else NegInf
  | NaN => NaN
  end.

(** [x < c]; every comparison with nan is false *)
Definition ltb (x : t) (c : Q) : bool :=
  match x with
  | Finite q => Qltb q c
  | NegInf => true
  | PosInf | NaN => false
  end.

(** [x > c] *)
Definition gtb (x : t) (c : Q) : bool :=
  match x with
  | Finite q => Qltb c q
  | PosInf => true
  | NegInf | NaN => false
  end.

Definition lt (x : t) (c : Q) : Prop := ltb x c = true.
Definition gt (x : t) (c : Q) : Prop := gtb x c = true.

(** The value is a finite number of the closed unit interval. *)
Definition in_unit (x : t) : Prop :=
  match x with Finite q => 0 <= q <= 1 | _ => False end.

(** Equality of values, up to the representation of rationals. *)
Definition eq (x y : t) : Prop :=
  match x, y with
  | Finite p, Finite q => p == q
  | PosInf, PosInf | NegInf, NegInf => True
  | _, _ => False
  end.

End Float64.

Definition ndarray := list Float64.t.

Module Np.

Import Float64.

Definition ones_like (z : ndarray) : ndarray := map (fun _ => Finite 1) z.

Definition sub (z : ndarray) (c : Q) : ndarray := map (fun x => sub x c) z.
Definition div (z : ndarray) (c : Q) : ndarray := map (fun x => div x c) z.
Definition lt (z : ndarray) (c : Q) : list bool := map (fun x => ltb x c) z.
Definition gt (z : ndarray) (c : Q) : list bool := map (fun x => gtb x c) z.

(** [np.where(cond, x, y)] on arrays of one shape *)
Definition where_ (cond : list bool) (x y : ndarray) : ndarray :=
  map (fun '(c, (a, b)) => if c : bool then a else b)
      (combine cond (combine x y)).

(** [np.where(cond, c, y)] with a scalar in the second position *)
Definition where_scalar (cond : list bool) (c : Q) (y : ndarray) : ndarray :=
  map (fun '(b, v) => if b : bool then Finite c else v) (combine cond y).

End Np.

(** ** Density profile of [lwfa_script.py] (single-sided ramp) *)

Module LwfaDensity.

Section Profile.
Variables ramp_start ramp_length : Q.

Definition dens_func (z r : ndarray) : ndarray :=
  (* Allocate relative density *)
  let n := Np.ones_like z in
  (* Make linear ramp *)
  let n := Np.where_ (Np.lt z (ramp_start + ramp_length))
                     (Np.div (Np.sub z ramp_start) ramp_length) n in
  (* Supress density before the ramp *)
  let n := Np.where_scalar (Np.lt z ramp_start) 0 n in
  n.

(** What [dens_func] computes at one position. *)
Definition dens_at (x : Float64.t) : Float64.t :=
  if Float64.ltb x ramp_start then Float64.Finite 0
  else if Float64.ltb x (ramp_start + ramp_length)
       then Float64.div (Float64.sub x ramp_start) ramp_length
       else Float64.Finite 1.

End Profile.

End LwfaDensity.

(** ** Density profile of [calder_experiment.py]
    (rise from [z1] to [z2], cut after [z4]; [z3] and the falling ramp are
    commented out in the source) *)

Module CalderDensity.

Section Profile.
Variables z1 z2 z4 : Q.

Definition dens_func (z r : ndarray) : ndarray :=
  (* Allocate relative density *)
  let n := Np.ones_like z in
  (* Make linear ramps *)
  let n := Np.where_ (Np.lt z z2) (Np.div (Np.sub z z1) (z2 - z1)) n in
  (* Supress density before/after the ramps *)
  let n := Np.where_scalar (Np.lt z z1) 0 n in
  let n := Np.where_scalar (Np.gt z z4) 0 n in
  n.

Definition dens_at (x : Float64.t) : Float64.t :=
  if Float64.gtb x z4 then Float64.Finite 0
  else if Float64.ltb x z1 then Float64.Finite 0
  else if Float64.ltb x z2
       then Float64.div (Float64.sub x z1) (z2 - z1)
       else Float64.Finite 1.

End Profile.

End CalderDensity.

(** The double-sided profile in the words of the specification: linear rise
    from [z1] to [z2], flat plateau from [z2] to [z3], linear fall from [z3]
    to [z4], zero outside [[z1, z4]].  It is compared below with the profile
    the source evaluates. *)
Definition double_sided_spec (z1 z2 z3 z4 : Q) (x : Q) : Q :=
  if Qltb x z1 then 0
  else if Qltb z4 x then 0
  else if Qltb x z2 then (x - z1) / (z2 - z1)
  else if Qltb z3 x then (z4 - x) / (z4 - z3)
  else 1.

(** ** Two-dimensional arrays

    A 2D array is the list of its rows; the arrays met here have at least one
    row and rows of one length. *)

Record complex := Complex { real : Q; imag : Q }.

Module Np2.

(** [a.T] *)
Fixpoint T {A} (a : list (list A)) : list (list A) :=
  match a with
  | [] => []
  | row :: rest =>
      match rest with
      | [] => map (fun x => [x]) row
      | _ :: _ => map (fun '(x, col) => x :: col) (combine row (T rest))
      end
  end.

(** [a.flatten()], row-major *)
Definition flatten {A} (a : list (list A)) : list A := concat a.

(** [a.real] *)
Definition real_part (a : list (list complex)) : list (list Q) :=
  map (map real) a.

(** [k * a] *)
Definition scale (k : Q) (a : list (list Q)) : list (list Q) :=
  map (map (Qmult k)) a.

Definition shape {A} (a : list (list A)) : list nat := map (@length A) a.

Definition same_shape {A B} (a : list (list A)) (b : list (list B)) : bool :=
  if list_eq_dec Nat.eq_dec (shape a) (shape b) then true else false.

Definition add (a b : list (list Q)) : list (list Q) :=
  map (fun '(ra, rb) => map (fun '(x, y) => x + y) (combine ra rb))
      (combine a b).

(** [a] has [rows] rows of [cols] entries each. *)
Definition rect {A} (rows cols : nat) (a : list (list A)) : Prop :=
  length a = rows /\ Forall (fun row => length row = cols) a.

(** [a[i][j]], with a default outside the array *)
Definition at_ {A} (a : list (list A)) (i j : nat) (d : A) : A :=
  nth j (nth i a []) d.

(** [a += b].  numpy raises [ValueError] when the shape of [b] cannot be
    broadcast to the shape of [a]; broadcasting from a smaller shape is not
    modelled, every other shape than that of [a] is refused. *)
Definition iadd (a b : list (list Q)) : result (list (list Q)) :=
  if same_shape a b then Ok (add a b) else Raise ValueError.

End Np2.

(** [l[i]] on a Python list, negative indices counting from the end *)
Definition py_index {A} (l : list A) (i : Z) : result A :=
  let n := Z.of_nat (length l) in
  let k := if (i <? 0)%Z then (n + i)%Z else i in
  if ((0 <=? k)%Z && (k <? n)%Z)%bool then
    match nth_error l (Z.to_nat k) with
    | Some a => Ok a
    | None => Raise IndexError
    end
  else Raise IndexError.

Definition rbind {A B} (r : result A) (k : A -> result B) : result B :=
  match r with
  | Ok a => k a
  | Raise e => Raise e
  end.

(** ** The staircase of [extract_energy_histogram.py] *)

Module Histogram.

Section Staircase.
Context {A : Type}.

(** [np.array([edges[:-1], edges[1:]]).T.flatten()] *)
Definition x_axis (edges : list A) : list A :=
  Np2.flatten (Np2.T [removelast edges; tl edges]).

(** [np.array([counts, counts]).T.flatten()] *)
Definition y_axis (counts : list A) : list A :=
  Np2.flatten (Np2.T [counts; counts]).

(** The entries at even and at odd positions of a sequence. *)
Fixpoint evens (l : list A) : list A :=
  match l with
  | a :: _ :: rest => a :: evens rest
  | other => other
  end.

Definition odds (l : list A) : list A := evens (tl l).

(** The sequence a0, b0, a1, b1, ... of two sequences of one length. *)
Fixpoint interleave (a b : list A) : list A :=
  match a, b with
  | x :: a', y :: b' => x :: y :: interleave a' b'
  | _, _ => []
  end.
End Staircase.

End Histogram.

(** ** Field slice of [lwfa_script.py] *)

(** A gathered grid, as far as the script reads it: the radial field in
    complex form, one row per radial cell in the engine's layout. *)
Record grid := Grid { Er : list (list complex) }.

Module FieldSlice.

(** The real part of [g.Er[j][i]] *)
Definition Er_real (g : grid) (j i : nat) : Q :=
  real (Np2.at_ (Er g) j i (Complex 0 0)).

(** The sum of the real parts at one cell over a list of modes. *)
Definition mode_sum (modes : list grid) (j i : nat) : Q :=
  fold_right (fun g s => Er_real g j i + s) 0 modes.

(** [g.Er.T.real] *)
Definition Er_T_real (g : grid) : list (list Q) :=
  Np2.real_part (Np2.T (Er g)).

(** The body of the loop [for m in range(1, Nm)].  The accumulator [Er] is
    updated in place; it is read again only by the plot. *)
Definition add_mode (gathered_grids : list grid) (acc : result (list (list Q)))
           (m : Z) : result (list (list Q)) :=
  rbind acc (fun Er_acc =>
  rbind (py_index gathered_grids m) (fun g =>
  (* There is a factor 2 here so as to comply with the convention in
     Lifschitz et al. *)
  Np2.iadd Er_acc (Np2.scale 2 (Er_T_real g)))).

(** The fields in the half-plane theta=0: sum of mode 0 and of the modes
    from 1 on. *)
Definition combine_modes (gathered_grids : list grid) (Nm : Z)
  : result (list (list Q)) :=
  rbind (py_index gathered_grids 0) (fun g0 =>
  let Er0 := Er_T_real g0 in
  fold_left (add_mode gathered_grids) (py_range 1 Nm) (Ok Er0)).

End FieldSlice.

(** ** Calls to the engine and the script monad *)

(** Modelled from the spec: [scipy.constants.c], the propagation-speed
    constant the timestep is derived with; the package is not part of the
    repository.  Its value is the speed of light in metres per second. *)
Definition c : Q := 299792458.

(** The particle-loading arguments of a species. *)
Record plasma := Plasma {
  pl_zmin : Q; pl_zmax : Q; pl_rmin : option Q; pl_rmax : Q;
  pl_nz : Z; pl_nr : Z; pl_nt : Z; pl_n : Q;
  pl_dens_func : ndarray -> ndarray -> ndarray
}.

(** The calls of the scripts into FBPIC and the plotting layer, with the
    arguments that vary with the configuration. *)
Inductive call :=
| Simulation (Nz : Z) (zmax : Q) (Nr : Z) (rmax : Q) (Nm : Z) (dt : Q)
             (particles : option plasma) (zmin : Q)
| add_laser_pulse (a0 waist tau z0 lambda0 : Q)
| add_laser (a0 w0 ctau z0 : Q)
| add_new_species (p : plasma)
| track
| restart_from_checkpoint
| set_moving_window (v : Q)
| set_diags (field_period particle_period : Z)
| set_periodic_checkpoint (period : Z)
| gather_grid (m : Z)
| Plot2D (arr2d : list (list Q))
| step (N : Z).

(** Fresh loading of a plasma species: [add_new_species], or the
    [Simulation] constructor when it is given particle parameters. *)
Definition species_load (ev : call) : bool :=
  match ev with
  | add_new_species _ => true
  | Simulation _ _ _ _ _ _ (Some _) _ => true
  | _ => false
  end.

Definition is_track (ev : call) : bool :=
  match ev with track => true | _ => false end.

Definition is_step (ev : call) : bool :=
  match ev with step _ => true | _ => false end.

(** The timestep a [Simulation] call carries. *)
Definition timestep_of (ev : call) : option Q :=
  match ev with
  | Simulation _ _ _ _ _ dt _ _ => Some dt
  | _ => None
  end.

(** A script run: the calls issued so far, and a value or the exception
    that stopped the run. *)
Definition script (A : Type) : Type := list call * result A.

Definition ret {A} (a : A) : script A := ([], Ok a).

Definition bind {A B} (m : script A) (k : A -> script B) : script B :=
  match m with
  | (t1, Ok a) => let (t2, r) := k a in (t1 ++ t2, r)
  | (t1, Raise e) => (t1, Raise e)
  end.

Definition emit (ev : call) : script unit := ([ev], Ok tt).

Definition lift {A} (r : result A) : script A := ([], r).

Declare Scope script_scope.
Delimit Scope script_scope with script.
Notation "x <- m ;; k" := (bind m (fun x => k))
  (at level 61, m at next level, right associativity) : script_scope.
Notation "m ;; k" := (bind m (fun _ => k))
  (at level 61, right associativity) : script_scope.

Fixpoint for_each {A B} (f : A -> script B) (l : list A) : script (list B) :=
  match l with
  | [] => ret []
  | a :: rest =>
      (b <- f a ;; bs <- for_each f rest ;; ret (b :: bs))%script
  end.

Definition trace {A} (s : script A) : list call := fst s.
Definition outcome {A} (s : script A) : result A := snd s.

(** [a] is issued, and no [step] is issued before it. *)
Definition issued_before_stepping (a : call) (tr : list call) : Prop :=
  exists pre post, tr = pre ++ a :: post /\ existsb is_step pre = false.

(** Modelled from the spec: the handle [create(config)] of the engine
    returns; FBPIC is not part of the repository.  The one attribute the
    scripts read back is [sim.dt], the timestep the constructor was
    given. *)
Record handle := Handle { sim_dt : Q }.

Definition new_Simulation (Nz : Z) (zmax : Q) (Nr : Z) (rmax : Q) (Nm : Z)
           (dt : Q) (particles : option plasma) (zmin : Q) : script handle :=
  (emit (Simulation Nz zmax Nr rmax Nm dt particles zmin) ;;
   ret (Handle dt))%script.

Local Open Scope script_scope.

(** ** [signac/src/lwfa_script.py] *)

Module Lwfa.

(** The parameters of the script (its module-level constants). *)
Record config := Config {
  Nz : Z; zmax : Q; zmin : Q; Nr : Z; rmax : Q; Nm : Z;
  p_zmin : Q; p_zmax : Q; p_rmax : Q; n_e : Q;
  p_nz : Z; p_nr : Z; p_nt : Z;
  a0 : Q; w0 : Q; ctau : Q; z0 : Q; lambda0 : Q;
  v_window : Q;
  diag_period : Z; save_checkpoints : pyobj; checkpoint_period : Z;
  use_restart : pyobj; track_electrons : pyobj;
  ramp_start : Q; ramp_length : Q
}.

Definition defaults : config := {|
  Nz := 4096; zmax := 30e-6; zmin := -70e-6; Nr := 256; rmax := 30e-6;
  Nm := 2;
  p_zmin := 0e-6; p_zmax := 2250e-6; p_rmax := 27e-6; n_e := 7.5e18 * 1e6;
  p_nz := 2; p_nr := 2; p_nt := 4;
  a0 := 4; w0 := 9e-6; ctau := 9e-6; z0 := 0e-6; lambda0 := 0.8e-6;
  v_window := c;
  diag_period := 100; save_checkpoints := PyBool false;
  checkpoint_period := 200;
  use_restart := PyBool false; track_electrons := PyBool true;
  ramp_start := 0e-6; ramp_length := 375e-6
|}.

Section Script.
Variable cfg : config.

(** The simulation timestep *)
Definition dt : result Q :=
  rbind (py_div (zmax cfg - zmin cfg) (inject_Z (Nz cfg))) (fun q =>
  py_div q c).

Definition dens_func : ndarray -> ndarray -> ndarray :=
  LwfaDensity.dens_func (ramp_start cfg) (ramp_length cfg).

(** The interaction length of the simulation (meters) *)
Definition L_interact : Q := 900e-6 - (zmax cfg - zmin cfg).

(** Interaction time (seconds) *)
Definition T_interact : result Q :=
  py_div (L_interact + (zmax cfg - zmin cfg)) (v_window cfg).

(** Number of iterations to perform: [int(T_interact/sim.dt)], on exact
    rationals.  The count the program computes, on the rounded binary64
    quotient, is [Binary64.N_step]. *)
Definition N_step (T_interact dt : Q) : result Z :=
  rbind (py_div T_interact dt) (fun q => Ok (py_int q)).

(** The block under [if __name__ == '__main__'].  [fld m] is what
    [sim.comm.gather_grid(sim.fld.interp[m])] returns. *)
Definition main (dt T_interact : Q) (fld : Z -> grid) : script unit :=
  (* Initialize the simulation object *)
  sim <- new_Simulation (Nz cfg) (zmax cfg) (Nr cfg) (rmax cfg) (Nm cfg)
                        dt None (zmin cfg) ;;
  (* Create a Gaussian laser profile and add it to the simulation *)
  tau <- lift (py_div (ctau cfg) c) ;;
  emit (add_laser_pulse (a0 cfg) (w0 cfg) tau (z0 cfg) (lambda0 cfg)) ;;
  (* Create the plasma electrons *)
  emit (add_new_species
          (Plasma (p_zmin cfg) (p_zmax cfg) None (p_rmax cfg)
                  (p_nz cfg) (p_nr cfg) (p_nt cfg) (n_e cfg) dens_func)) ;;
  (if is_False (use_restart cfg) then
     (* Track electrons if required *)
     if truthy (track_electrons cfg) then emit track else ret tt
   else
     (* Load the fields and particles from the latest checkpoint file *)
     emit restart_from_checkpoint) ;;
  (* Configure the moving window *)
  emit (set_moving_window (v_window cfg)) ;;
  (* Add diagnostics *)
  emit (set_diags (diag_period cfg) (diag_period cfg)) ;;
  (* Add checkpoints *)
  (if truthy (save_checkpoints cfg)
   then emit (set_periodic_checkpoint (checkpoint_period cfg))
   else ret tt) ;;
  (* Number of iterations to perform *)
  n <- lift (N_step T_interact (sim_dt sim)) ;;
  (* Get the fields in the half-plane theta=0 *)
  gathered_grids <-
    for_each (fun m => emit (gather_grid m) ;; ret (fld m))
             (py_range 0 (Nm cfg)) ;;
  Er <- lift (FieldSlice.combine_modes gathered_grids (Nm cfg)) ;;
  (* The plot shows [Er / e0]; the scaling by [e0] (with [k0], which divides
     by [lambda0]), the axes and the labels are not modelled. *)
  emit (Plot2D Er) ;;
  (* Run the simulation *)
  emit (step n).

(** The whole script: module-level constants, then [main]. *)
Definition run (fld : Z -> grid) : script unit :=
  dt <- lift dt ;;
  T_interact <- lift T_interact ;;
  main dt T_interact fld.

(** The configuration with other restart and tracking flags. *)
Definition with_flags (restart track : pyobj) : config := {|
  Nz := Nz cfg; zmax := zmax cfg; zmin := zmin cfg; Nr := Nr cfg;
  rmax := rmax cfg; Nm := Nm cfg;
  p_zmin := p_zmin cfg; p_zmax := p_zmax cfg; p_rmax := p_rmax cfg;
  n_e := n_e cfg; p_nz := p_nz cfg; p_nr := p_nr cfg; p_nt := p_nt cfg;
  a0 := a0 cfg; w0 := w0 cfg; ctau := ctau cfg; z0 := z0 cfg;
  lambda0 := lambda0 cfg; v_window := v_window cfg;
  diag_period := diag_period cfg;
  save_checkpoints := save_checkpoints cfg;
  checkpoint_period := checkpoint_period cfg;
  use_restart := restart; track_electrons := track;
  ramp_start := ramp_start cfg; ramp_length := ramp_length cfg
|}.
End Script.

End Lwfa.

(** ** [calder/experiment_2012/calder_experiment.py] *)

Module Calder.

Record config := Config {
  Nz : Z; zmax : Q; zmin : Q; Nr : Z; rmax : Q; Nm : Z;
  N_step : Z;
  p_zmin : Q; p_zmax : Q; p_rmin : Q; p_rmax : Q; n_e : Q;
  p_nz : Z; p_nr : Z; p_nt : Z;
  a0 : Q; w0 : Q; ctau : Q; z0 : Q;
  v_window : Q;
  diag_period : Z; save_checkpoints : pyobj; checkpoint_period : Z;
  use_restart : pyobj; track_electrons : pyobj;
  z1 : Q; z2 : Q; z4 : Q
}.

Definition defaults : config := {|
  Nz := 5000; zmax := 20e-6; zmin := -41.11e-6; Nr := 600;
  rmax := 114.59e-6; Nm := 7;
  N_step := 130400;
  p_zmin := 0e-6; p_zmax := 1565e-6; p_rmin := 0; p_rmax := 103e-6;
  n_e := 9.6e18 * 1e6;
  p_nz := 5; p_nr := 10; p_nt := 15;
  a0 := 2; w0 := 20e-6; ctau := 9e-6; z0 := 0e-6;
  v_window := c;
  diag_period := 100; save_checkpoints := PyBool false;
  checkpoint_period := 50;
  use_restart := PyBool false; track_electrons := PyBool false;
  z1 := 0e-6; z2 := 65e-6; z4 := 1565e-6
|}.

Section Script.
Variable cfg : config.

(** The simulation timestep *)
Definition dt : result Q :=
  rbind (py_div (zmax cfg - zmin cfg) (inject_Z (Nz cfg))) (fun q =>
  py_div q c).

Definition dens_func : ndarray -> ndarray -> ndarray :=
  CalderDensity.dens_func (z1 cfg) (z2 cfg) (z4 cfg).

Definition main (dt : Q) : script unit :=
  (* Initialize the simulation object *)
  sim <- new_Simulation (Nz cfg) (zmax cfg) (Nr cfg) (rmax cfg) (Nm cfg) dt
           (Some (Plasma (p_zmin cfg) (p_zmax cfg) (Some (p_rmin cfg))
                         (p_rmax cfg) (p_nz cfg) (p_nr cfg) (p_nt cfg)
                         (n_e cfg) dens_func))
           (zmin cfg) ;;
  (* Add a laser to the fields of the simulation *)
  emit (add_laser (a0 cfg) (w0 cfg) (ctau cfg) (z0 cfg)) ;;
  (if is_False (use_restart cfg) then
     (* Track electrons if required *)
     if truthy (track_electrons cfg) then emit track else ret tt
   else
     (* Load the fields and particles from the latest checkpoint file *)
     emit restart_from_checkpoint) ;;
  (* Configure the moving window *)
  emit (set_moving_window (v_window cfg)) ;;
  (* Add diagnostics *)
  emit (set_diags (diag_period cfg) (diag_period cfg)) ;;
  (* Add checkpoints *)
  (if truthy (save_checkpoints cfg)
   then emit (set_periodic_checkpoint (checkpoint_period cfg))
   else ret tt) ;;
  (* Run the simulation *)
  emit (step (N_step cfg)).

Definition run : script unit :=
  dt <- lift dt ;;
  main dt.

(** The configuration with other restart and tracking flags. *)
Definition with_flags (restart track : pyobj) : config := {|
  Nz := Nz cfg; zmax := zmax cfg; zmin := zmin cfg; Nr := Nr cfg;
  rmax := rmax cfg; Nm := Nm cfg; N_step := N_step cfg;
  p_zmin := p_zmin cfg; p_zmax := p_zmax cfg; p_rmin := p_rmin cfg;
  p_rmax := p_rmax cfg; n_e := n_e cfg;
  p_nz := p_nz cfg; p_nr := p_nr cfg; p_nt := p_nt cfg;
  a0 := a0 cfg; w0 := w0 cfg; ctau := ctau cfg; z0 := z0 cfg;
  v_window := v_window cfg;
  diag_period := diag_period cfg;
  save_checkpoints := save_checkpoints cfg;
  checkpoint_period := checkpoint_period cfg;
  use_restart := restart; track_electrons := track;
  z1 := z1 cfg; z2 := z2 cfg; z4 := z4 cfg
|}.
End Script.

End Calder.

(** A field of small grids for concrete runs: mode [m] holds the value
    [m + 1] in each of its two cells. *)
Definition sample_fld (m : Z) : grid :=
  Grid [[Complex (inject_Z (m + 1)) 0]; [Complex (inject_Z (m + 1)) 0]].

(** ** The step count in binary64

    The module-level floats of [lwfa_script.py] and [int(T_interact/sim.dt)]
    on primitive floats, which are the binary64 numbers of Python. *)

Set Warnings "-inexact-float".

Module Binary64.

(** [float(n)] for a Python int, as the division [x / n] converts it: the
    nearest binary64, [OverflowError] beyond the range. *)
Definition of_int (n : Z) : result float :=
  let x := SF2Prim (binary_normalize prec emax n 0 false) in
  if PrimFloat.is_infinity x then Raise OverflowError else Ok x.

(** [x / y] on Python floats *)
Definition py_div (x y : float) : result float :=
  if PrimFloat.eqb y 0%float then Raise ZeroDivisionError
  else Ok (PrimFloat.div x y).

(** The magnitude [m * 2^e] of a finite binary64, and its integer part. *)
Definition magnitude (m : positive) (e : Z) : Q :=
  if (0 <=? e)%Z then inject_Z (Z.pos m * 2 ^ e)
  else Z.pos m # Z.to_pos (2 ^ (- e)).

Definition integer_part (m : positive) (e : Z) : Z :=
  if (0 <=? e)%Z then (Z.pos m * 2 ^ e)%Z else (Z.pos m / 2 ^ (- e))%Z.

(** The number a float stands for; none for inf, -inf and nan. *)
Definition value (x : float) : option Q :=
  match Prim2SF x with
  | S754_zero _ => Some 0
  | S754_finite s m e => Some (if s then - magnitude m e else magnitude m e)
  | S754_infinity _ | S754_nan => None
  end.

(** [int(x)] on a Python float: the fractional part is discarded, towards
    zero; [int(inf)] raises [OverflowError], [int(nan)] [ValueError]. *)
Definition py_int (x : float) : result Z :=
  match Prim2SF x with
  | S754_zero _ => Ok 0%Z
  | S754_finite s m e =>
      Ok (if s then (- integer_part m e)%Z else integer_part m e)
  | S754_infinity _ => Raise OverflowError
  | S754_nan => Raise ValueError
  end.

(** [scipy.constants.c] *)
Definition c : float := 299792458%float.

(** The parameters the step count depends on. *)
Record box := Box { zmax : float; zmin : float; Nz : Z; v_window : float }.

Definition lwfa_box : box :=
  Box 30e-6%float (-70e-6)%float 4096 c.

(** The box of [calder_experiment.py], which derives its timestep alike. *)
Definition calder_box : box :=
  Box 20e-6%float (-41.11e-6)%float 5000 c.

(** The simulation timestep: [dt = (zmax-zmin)/Nz/c] *)
Definition dt (b : box) : result float :=
  rbind (of_int (Nz b)) (fun n =>
  rbind (py_div (PrimFloat.sub (zmax b) (zmin b)) n) (fun q =>
  py_div q c)).

(** [L_interact = 900.e-6 - (zmax - zmin)] *)
Definition L_interact (b : box) : float :=
  PrimFloat.sub 900e-6%float (PrimFloat.sub (zmax b) (zmin b)).

(** [T_interact = ( L_interact + (zmax-zmin) ) / v_window] *)
Definition T_interact (b : box) : result float :=
  py_div (PrimFloat.add (L_interact b) (PrimFloat.sub (zmax b) (zmin b)))
         (v_window b).

(** [N_step = int(T_interact/sim.dt)] *)
Definition N_step (T_interact dt : float) : result Z :=
  rbind (py_div T_interact dt) py_int.

(** The count of a script with the parameters [b]. *)
Definition step_count (b : box) : result Z :=
  rbind (dt b) (fun d => rbind (T_interact b) (fun T => N_step T d)).

End Binary64.

(** ** The calls of a run, written out *)

(** The calls of the branch on [use_restart]. *)
Definition restart_or_track (use_restart track_electrons : pyobj) : list call :=
  if is_False use_restart
  then if truthy track_electrons then [track] else []
  else [restart_from_checkpoint].

(** The calls of the branch on [save_checkpoints]. *)
Definition checkpoint_calls (save_checkpoints : pyobj) (period : Z)
  : list call :=
  if truthy save_checkpoints then [set_periodic_checkpoint period] else [].

(** The calls of [lwfa_script.py] up to the checkpoint policy. *)
Definition lwfa_setup (cfg : Lwfa.config) (dt : Q) : list call :=
  [Simulation (Lwfa.Nz cfg) (Lwfa.zmax cfg) (Lwfa.Nr cfg) (Lwfa.rmax cfg)
              (Lwfa.Nm cfg) dt None (Lwfa.zmin cfg);
   add_laser_pulse (Lwfa.a0 cfg) (Lwfa.w0 cfg) (Lwfa.ctau cfg / c)
                   (Lwfa.z0 cfg) (Lwfa.lambda0 cfg);
   add_new_species
     (Plasma (Lwfa.p_zmin cfg) (Lwfa.p_zmax cfg) None (Lwfa.p_rmax cfg)
             (Lwfa.p_nz cfg) (Lwfa.p_nr cfg) (Lwfa.p_nt cfg) (Lwfa.n_e cfg)
             (Lwfa.dens_func cfg))]
  ++ restart_or_track (Lwfa.use_restart cfg) (Lwfa.track_electrons cfg)
  ++ [set_moving_window (Lwfa.v_window cfg);
      set_diags (Lwfa.diag_period cfg) (Lwfa.diag_period cfg)]
  ++ checkpoint_calls (Lwfa.save_checkpoints cfg) (Lwfa.checkpoint_period cfg).

(** The grids [lwfa_script.py] gathers. *)
Definition lwfa_gathered (cfg : Lwfa.config) (fld : Z -> grid) : list grid :=
  map fld (py_range 0 (Lwfa.Nm cfg)).

(** The calls of [calder_experiment.py] up to the checkpoint policy. *)
Definition calder_setup (cfg : Calder.config) (dt : Q) : list call :=
  [Simulation (Calder.Nz cfg) (Calder.zmax cfg) (Calder.Nr cfg)
              (Calder.rmax cfg) (Calder.Nm cfg) dt
              (Some (Plasma (Calder.p_zmin cfg) (Calder.p_zmax cfg)
                            (Some (Calder.p_rmin cfg)) (Calder.p_rmax cfg)
                            (Calder.p_nz cfg) (Calder.p_nr cfg)
                            (Calder.p_nt cfg) (Calder.n_e cfg)
                            (Calder.dens_func cfg)))
              (Calder.zmin cfg);
   add_laser (Calder.a0 cfg) (Calder.w0 cfg) (Calder.ctau cfg) (Calder.z0 cfg)]
  ++ restart_or_track (Calder.use_restart cfg) (Calder.track_electrons cfg)
  ++ [set_moving_window (Calder.v_window cfg);
      set_diags (Calder.diag_period cfg) (Calder.diag_period cfg)]
  ++ checkpoint_calls (Calder.save_checkpoints cfg)
                      (Calder.checkpoint_period cfg).

Definition is_restart (ev : call) : bool :=
  match ev with restart_from_checkpoint => true | _ => false end.

Definition is_gather (ev : call) : bool :=
  match ev with gather_grid _ => true | _ => false end.

Definition is_plot (ev : call) : bool :=
  match ev with Plot2D _ => true | _ => false end.

(** The stage of a run a call belongs to. *)
Definition phase (ev : call) : nat :=
  match ev with
  | Simulation _ _ _ _ _ _ _ _ => 0
  | add_laser_pulse _ _ _ _ _ | add_laser _ _ _ _ => 1
  | add_new_species _ => 2
  | track | restart_from_checkpoint => 3
  | set_moving_window _ => 4
  | set_diags _ _ => 5
  | set_periodic_checkpoint _ => 6
  | gather_grid _ => 7
  | Plot2D _ => 8
  | step _ => 9
  end.

(** [a] belongs to an earlier stage than [b], or both gather a grid and [a]
    gathers the lower mode. *)
Definition precedes (a b : call) : Prop :=
  (phase a < phase b)%nat \/
  exists m m', a = gather_grid m /\ b = gather_grid m' /\ (m < m')%Z.

(** ** The iteration [extract_energy_histogram.py] analyses *)

Module ExtractHistogram.

(** [iteration = time_series.iterations[-1]] *)
Definition iteration (iterations : list Z) : result Z :=
  py_index iterations (-1).

End ExtractHistogram.

(** A grid with the imaginary parts of its field set to zero. *)
Definition drop_imag (g : grid) : grid :=
  Grid (map (map (fun z => Complex (real z) 0)) (Er g)).

(** A step profile: 0 below [z0], 1 from [z0] on. *)
Definition step_at (z0 : Q) (x : Float64.t) : Float64.t :=
  if Float64.ltb x z0 then Float64.Finite 0 else Float64.Finite 1.


(** A configuration of [lwfa_script.py] with another window speed, box and
    number of modes. *)
Definition lwfa_variant (v_window zmax : Q) (Nm : Z) : Lwfa.config :=
  let d := Lwfa.defaults in
  Lwfa.Config (Lwfa.Nz d) zmax (Lwfa.zmin d) (Lwfa.Nr d) (Lwfa.rmax d) Nm
    (Lwfa.p_zmin d) (Lwfa.p_zmax d) (Lwfa.p_rmax d) (Lwfa.n_e d)
    (Lwfa.p_nz d) (Lwfa.p_nr d) (Lwfa.p_nt d)
    (Lwfa.a0 d) (Lwfa.w0 d) (Lwfa.ctau d) (Lwfa.z0 d) (Lwfa.lambda0 d)
    v_window
    (Lwfa.diag_period d) (Lwfa.save_checkpoints d) (Lwfa.checkpoint_period d)
    (Lwfa.use_restart d) (Lwfa.track_electrons d)
    (Lwfa.ramp_start d) (Lwfa.ramp_length d).

(** Configurations with another checkpoint policy. *)
Definition lwfa_with_checkpoints (d : Lwfa.config) (save : pyobj) (period : Z)
  : Lwfa.config :=
  Lwfa.Config (Lwfa.Nz d) (Lwfa.zmax d) (Lwfa.zmin d) (Lwfa.Nr d) (Lwfa.rmax d)
    (Lwfa.Nm d)
    (Lwfa.p_zmin d) (Lwfa.p_zmax d) (Lwfa.p_rmax d) (Lwfa.n_e d)
    (Lwfa.p_nz d) (Lwfa.p_nr d) (Lwfa.p_nt d)
    (Lwfa.a0 d) (Lwfa.w0 d) (Lwfa.ctau d) (Lwfa.z0 d) (Lwfa.lambda0 d)
    (Lwfa.v_window d)
    (Lwfa.diag_period d) save period
    (Lwfa.use_restart d) (Lwfa.track_electrons d)
    (Lwfa.ramp_start d) (Lwfa.ramp_length d).

Definition calder_with_checkpoints (d : Calder.config) (save : pyobj)
           (period : Z) : Calder.config :=
  Calder.Config (Calder.Nz d) (Calder.zmax d) (Calder.zmin d) (Calder.Nr d)
    (Calder.rmax d) (Calder.Nm d) (Calder.N_step d)
    (Calder.p_zmin d) (Calder.p_zmax d) (Calder.p_rmin d) (Calder.p_rmax d)
    (Calder.n_e d) (Calder.p_nz d) (Calder.p_nr d) (Calder.p_nt d)
    (Calder.a0 d) (Calder.w0 d) (Calder.ctau d) (Calder.z0 d)
    (Calder.v_window d)
    (Calder.diag_period d) save period
    (Calder.use_restart d) (Calder.track_electrons d)
    (Calder.z1 d) (Calder.z2 d) (Calder.z4 d).

(** A configuration of [calder_experiment.py] with no axial cell. *)
Definition calder_no_cells (d : Calder.config) : Calder.config :=
  Calder.Config 0 (Calder.zmax d) (Calder.zmin d) (Calder.Nr d)
    (Calder.rmax d) (Calder.Nm d) (Calder.N_step d)
    (Calder.p_zmin d) (Calder.p_zmax d) (Calder.p_rmin d) (Calder.p_rmax d)
    (Calder.n_e d) (Calder.p_nz d) (Calder.p_nr d) (Calder.p_nt d)
    (Calder.a0 d) (Calder.w0 d) (Calder.ctau d) (Calder.z0 d)
    (Calder.v_window d)
    (Calder.diag_period d) (Calder.save_checkpoints d)
    (Calder.checkpoint_period d)
    (Calder.use_restart d) (Calder.track_electrons d)
    (Calder.z1 d) (Calder.z2 d) (Calder.z4 d).

(** * Properties *)

Local Close Scope script_scope.

(** ** Comparisons and arithmetic on rationals *)

Lemma Qltb_lt x y : Qltb x y = true <-> x < y.
Proof.
  unfold Qltb. rewrite negb_true_iff, <- not_true_iff_false, Qle_bool_iff.
  split; [apply Qnot_le_lt | apply Qlt_not_le].
Qed.

Lemma Qltb_ge x y : Qltb x y = false <-> y <= x.
Proof.
  unfold Qltb. rewrite negb_false_iff. apply Qle_bool_iff.
Qed.

Lemma Qeq_bool_false x y : Qeq_bool x y = false <-> ~ x == y.
Proof.
  rewrite <- not_true_iff_false, Qeq_bool_iff. reflexivity.
Qed.

(** Case analysis on a boolean comparison, leaving the order fact. *)
Ltac case_Qltb a b :=
  let H := fresh "Hcmp" in
  destruct (Qltb a b) eqn:H;
  [apply Qltb_lt in H | apply Qltb_ge in H].

Ltac case_Qeqb a b :=
  let H := fresh "Heq" in
  destruct (Qeq_bool a b) eqn:H;
  [apply Qeq_bool_iff in H | apply Qeq_bool_false in H].

(** A quotient of a part by a positive whole lies in the unit interval. *)
Lemma Qdiv_unit (a d : Q) : 0 <= a -> a <= d -> 0 < d -> 0 <= a / d <= 1.
Proof.
  intros Ha Had Hd. split.
  - apply Qle_shift_div_l; [assumption | lra].
  - apply Qle_shift_div_r; [assumption | lra].
Qed.

Lemma Qdiv_mono (a b d : Q) : 0 < d -> a <= b -> a / d <= b / d.
Proof.
  intros Hd Hab. unfold Qdiv.
  apply Qmult_le_compat_r; [assumption|].
  apply Qlt_le_weak, Qinv_lt_0_compat, Hd.
Qed.

Lemma Qdiv_self (d : Q) : ~ d == 0 -> d / d == 1.
Proof. intros Hd. field. exact Hd. Qed.

(** ** The density profiles, position by position *)

Lemma where_map {A} (p : A -> bool) (f g : A -> Float64.t) (l : list A) :
  Np.where_ (map p l) (map f l) (map g l)
  = map (fun a => if p a then f a else g a) l.
Proof.
  unfold Np.where_. induction l as [|a l IH]; simpl; [reflexivity|].
  now rewrite IH.
Qed.

Lemma where_scalar_map {A} (p : A -> bool) (k : Q) (g : A -> Float64.t)
      (l : list A) :
  Np.where_scalar (map p l) k (map g l)
  = map (fun a => if p a then Float64.Finite k else g a) l.
Proof.
  unfold Np.where_scalar. induction l as [|a l IH]; simpl; [reflexivity|].
  now rewrite IH.
Qed.

Lemma lwfa_dens_func_pointwise rs rl z r :
  LwfaDensity.dens_func rs rl z r = map (LwfaDensity.dens_at rs rl) z.
Proof.
  unfold LwfaDensity.dens_func, Np.ones_like, Np.lt, Np.div, Np.sub.
  rewrite map_map, where_map, where_scalar_map.
  reflexivity.
Qed.

Lemma calder_dens_func_pointwise z1 z2 z4 z r :
  CalderDensity.dens_func z1 z2 z4 z r = map (CalderDensity.dens_at z1 z2 z4) z.
Proof.
  unfold CalderDensity.dens_func, Np.ones_like, Np.lt, Np.gt, Np.div, Np.sub.
  rewrite map_map, where_map, where_scalar_map, where_scalar_map.
  apply map_ext. intros x. unfold CalderDensity.dens_at.
  destruct (Float64.gtb x z4), (Float64.ltb x z1), (Float64.ltb x z2);
    reflexivity.
Qed.

Lemma lwfa_dens_nth rs rl z r i x :
  nth_error z i = Some x ->
  nth_error (LwfaDensity.dens_func rs rl z r) i
  = Some (LwfaDensity.dens_at rs rl x).
Proof.
  intros H. rewrite lwfa_dens_func_pointwise. now apply map_nth_error.
Qed.

Lemma calder_dens_nth z1 z2 z4 z r i x :
  nth_error z i = Some x ->
  nth_error (CalderDensity.dens_func z1 z2 z4 z r) i
  = Some (CalderDensity.dens_at z1 z2 z4 x).
Proof.
  intros H. rewrite calder_dens_func_pointwise. now apply map_nth_error.
Qed.

(** Both profiles stay in the unit interval at every position, whatever the
    breakpoints are. *)
Lemma lwfa_dens_at_unit rs rl x : Float64.in_unit (LwfaDensity.dens_at rs rl x).
Proof.
  unfold LwfaDensity.dens_at.
  destruct x as [q| | |]; simpl; try lra.
  case_Qltb q rs; simpl; [lra|].
  case_Qltb q (rs + rl); simpl; [|lra].
  case_Qeqb rl 0; [lra|].
  simpl. apply Qdiv_unit; lra.
Qed.

Lemma calder_dens_at_unit z1 z2 z4 x :
  Float64.in_unit (CalderDensity.dens_at z1 z2 z4 x).
Proof.
  unfold CalderDensity.dens_at.
  destruct x as [q| | |]; simpl; try lra.
  case_Qltb z4 q; simpl; [lra|].
  case_Qltb q z1; simpl; [lra|].
  case_Qltb q z2; simpl; [|lra].
  case_Qeqb (z2 - z1) 0; [lra|].
  simpl. apply Qdiv_unit; lra.
Qed.

Lemma lwfa_ramp_value rs rl p :
  0 < rl -> rs <= p -> p <= rs + rl ->
  exists d, LwfaDensity.dens_at rs rl (Float64.Finite p) = Float64.Finite d
            /\ d == (p - rs) / rl.
Proof.
  intros Hrl Hlo Hhi. unfold LwfaDensity.dens_at. simpl.
  case_Qltb p rs; [lra|].
  case_Qltb p (rs + rl).
  - case_Qeqb rl 0; [lra|]. eexists; split; reflexivity.
  - exists 1. split; [reflexivity|].
    assert (Hp : p - rs == rl) by lra.
    rewrite Hp. symmetry. apply Qdiv_self. lra.
Qed.

Lemma calder_ramp_value z1 z2 z4 p :
  z1 < z2 -> z2 <= z4 -> z1 <= p -> p <= z2 ->
  exists d, CalderDensity.dens_at z1 z2 z4 (Float64.Finite p) = Float64.Finite d
            /\ d == (p - z1) / (z2 - z1).
Proof.
  intros Hlen H24 Hlo Hhi. unfold CalderDensity.dens_at. simpl.
  case_Qltb z4 p; [lra|].
  case_Qltb p z1; [lra|].
  case_Qltb p z2.
  - case_Qeqb (z2 - z1) 0; [lra|]. eexists; split; reflexivity.
  - exists 1. split; [reflexivity|].
    assert (Hp : p - z1 == z2 - z1) by lra.
    rewrite Hp. symmetry. apply Qdiv_self. lra.
Qed.

Lemma ramp_start_value (a d : Q) : a == 0 -> a / d == 0.
Proof. intros Ha. rewrite Ha. unfold Qdiv. ring. Qed.

Lemma ramp_end_value (a d : Q) : 0 < d -> a == d -> a / d == 1.
Proof. intros Hd Ha. rewrite Ha. apply Qdiv_self. lra. Qed.

(** ** C4: density outside the outermost breakpoints *)

(** C4, as stated, fails on the single-sided profile: beyond
    [ramp_start + ramp_length] the relative density of [lwfa_script.py] is 1,
    not 0.  Here with the ramp of the script, at 400 micrometres. *)
Lemma C4_single_sided_upper_tail :
  Float64.gt (Float64.Finite 400e-6) (0e-6 + 375e-6) /\
  nth_error (LwfaDensity.dens_func 0e-6 375e-6
               [Float64.Finite 400e-6] [Float64.Finite 0]) 0
  = Some (Float64.Finite 1) /\
  ~ Float64.eq (Float64.Finite 1) (Float64.Finite 0).
Proof.
  split; [reflexivity|]. split; [reflexivity|].
  simpl. intros H. discriminate H.
Qed.

(** C4 (amended): at every position below [z1] or above [z4] the profile of
    [calder_experiment.py] is 0; the profile of [lwfa_script.py] is 0 at
    every position below [ramp_start] and 1 at every position that is neither
    below [ramp_start] nor below [ramp_start + ramp_length]; neither profile
    depends on the radial argument. *)
Theorem C4_density_outside (z r : ndarray) (i : nat) (x : Float64.t)
        (Hx : nth_error z i = Some x) :
  (forall z1 z2 z4, Float64.lt x z1 \/ Float64.gt x z4 ->
     nth_error (CalderDensity.dens_func z1 z2 z4 z r) i
     = Some (Float64.Finite 0)) /\
  (forall rs rl, Float64.lt x rs ->
     nth_error (LwfaDensity.dens_func rs rl z r) i = Some (Float64.Finite 0)) /\
  (forall rs rl, Float64.ltb x rs = false ->
     Float64.ltb x (rs + rl) = false ->
     nth_error (LwfaDensity.dens_func rs rl z r) i = Some (Float64.Finite 1)) /\
  (forall r' z1 z2 z4,
     CalderDensity.dens_func z1 z2 z4 z r' = CalderDensity.dens_func z1 z2 z4 z r) /\
  (forall r' rs rl,
     LwfaDensity.dens_func rs rl z r' = LwfaDensity.dens_func rs rl z r).
Proof.
  repeat split.
  - intros z1 z2 z4 Hout. rewrite (calder_dens_nth _ _ _ _ _ _ _ Hx).
    unfold CalderDensity.dens_at, Float64.lt, Float64.gt in *.
    destruct Hout as [H|H]; rewrite H; [|reflexivity].
    destruct (Float64.gtb x z4); reflexivity.
  - intros rs rl H. rewrite (lwfa_dens_nth _ _ _ _ _ _ Hx).
    unfold LwfaDensity.dens_at, Float64.lt in *. now rewrite H.
  - intros rs rl H1 H2. rewrite (lwfa_dens_nth _ _ _ _ _ _ Hx).
    unfold LwfaDensity.dens_at. now rewrite H1, H2.
Qed.

Lemma C4_density_outside_witness :
  nth_error (CalderDensity.dens_func 0e-6 65e-6 1565e-6
               [Float64.Finite (-1e-6)] []) 0 = Some (Float64.Finite 0) /\
  nth_error (LwfaDensity.dens_func 0e-6 375e-6
               [Float64.Finite (-1e-6)] []) 0 = Some (Float64.Finite 0) /\
  nth_error (LwfaDensity.dens_func 0e-6 375e-6
               [Float64.Finite 400e-6] []) 0 = Some (Float64.Finite 1).
Proof.
  destruct (C4_density_outside [Float64.Finite (-1e-6)] [] 0
              (Float64.Finite (-1e-6)) eq_refl) as (Hc & Hl & _).
  destruct (C4_density_outside [Float64.Finite 400e-6] [] 0
              (Float64.Finite 400e-6) eq_refl) as (_ & _ & Hu & _).
  split; [apply Hc; left; reflexivity|].
  split; [apply Hl; reflexivity|].
  apply Hu; reflexivity.
Defined.

(** ** C5: the rising ramp *)

(** C5: at positions [p <= q] inside the rising ramp (of positive length) the
    density is the linear interpolation between 0 at the start and 1 at the
    end of the ramp, it does not decrease from [p] to [q], and it is 0 at
    the lower and 1 at the upper breakpoint.  For [calder_experiment.py] the
    ramp ends no later than the cut-off [z4]. *)
Theorem C5_rising_ramp (z r : ndarray) (i j : nat) (p q : Q)
        (Hp : nth_error z i = Some (Float64.Finite p))
        (Hq : nth_error z j = Some (Float64.Finite q))
        (Hpq : p <= q) :
  (forall rs rl, 0 < rl -> rs <= p -> q <= rs + rl ->
     exists d e,
       nth_error (LwfaDensity.dens_func rs rl z r) i = Some (Float64.Finite d) /\
       nth_error (LwfaDensity.dens_func rs rl z r) j = Some (Float64.Finite e) /\
       d == (p - rs) / rl /\ e == (q - rs) / rl /\ d <= e /\
       (p == rs -> d == 0) /\ (q == rs + rl -> e == 1)) /\
  (forall z1 z2 z4, z1 < z2 -> z2 <= z4 -> z1 <= p -> q <= z2 ->
     exists d e,
       nth_error (CalderDensity.dens_func z1 z2 z4 z r) i
       = Some (Float64.Finite d) /\
       nth_error (CalderDensity.dens_func z1 z2 z4 z r) j
       = Some (Float64.Finite e) /\
       d == (p - z1) / (z2 - z1) /\ e == (q - z1) / (z2 - z1) /\ d <= e /\
       (p == z1 -> d == 0) /\ (q == z2 -> e == 1)).
Proof.
  split.
  - intros rs rl Hrl Hlo Hhi.
    destruct (lwfa_ramp_value rs rl p) as (d & Hd & Hdv); try lra.
    destruct (lwfa_ramp_value rs rl q) as (e & He & Hev); try lra.
    exists d, e.
    rewrite (lwfa_dens_nth _ _ _ _ _ _ Hp), (lwfa_dens_nth _ _ _ _ _ _ Hq).
    rewrite Hd, He. repeat split; try assumption.
    + rewrite Hdv, Hev. apply Qdiv_mono; lra.
    + intros E. rewrite Hdv. apply ramp_start_value. lra.
    + intros E. rewrite Hev. apply ramp_end_value; lra.
  - intros z1 z2 z4 Hlen H24 Hlo Hhi.
    destruct (calder_ramp_value z1 z2 z4 p) as (d & Hd & Hdv); try lra.
    destruct (calder_ramp_value z1 z2 z4 q) as (e & He & Hev); try lra.
    exists d, e.
    rewrite (calder_dens_nth _ _ _ _ _ _ _ Hp), (calder_dens_nth _ _ _ _ _ _ _ Hq).
    rewrite Hd, He. repeat split; try assumption.
    + rewrite Hdv, Hev. apply Qdiv_mono; lra.
    + intros E. rewrite Hdv. apply ramp_start_value. lra.
    + intros E. rewrite Hev. apply ramp_end_value; lra.
Qed.

Lemma C5_rising_ramp_witness :
  (exists d e,
     nth_error (LwfaDensity.dens_func 0e-6 375e-6
                  [Float64.Finite 0; Float64.Finite 375e-6] []) 0
     = Some (Float64.Finite d) /\
     nth_error (LwfaDensity.dens_func 0e-6 375e-6
                  [Float64.Finite 0; Float64.Finite 375e-6] []) 1
     = Some (Float64.Finite e) /\
     d == (0 - 0e-6) / 375e-6 /\ e == (375e-6 - 0e-6) / 375e-6 /\ d <= e /\
     (0 == 0e-6 -> d == 0) /\ (375e-6 == 0e-6 + 375e-6 -> e == 1)) /\
  (exists d e,
     nth_error (CalderDensity.dens_func 0e-6 65e-6 1565e-6
                  [Float64.Finite 0; Float64.Finite 375e-6] []) 0
     = Some (Float64.Finite d) /\
     nth_error (CalderDensity.dens_func 0e-6 65e-6 1565e-6
                  [Float64.Finite 0; Float64.Finite 375e-6] []) 0
     = Some (Float64.Finite e) /\
     d == (0 - 0e-6) / (65e-6 - 0e-6) /\ e == (0 - 0e-6) / (65e-6 - 0e-6) /\
     d <= e /\ (0 == 0e-6 -> d == 0) /\ (0 == 65e-6 -> e == 1)).
Proof.
  split.
  - apply (C5_rising_ramp [Float64.Finite 0; Float64.Finite 375e-6] [] 0 1
             0 375e-6 eq_refl eq_refl); vm_compute; congruence.
  - apply (C5_rising_ramp [Float64.Finite 0; Float64.Finite 375e-6] [] 0 0
             0 0 eq_refl eq_refl); vm_compute; congruence.
Defined.

(** ** C6: the double-sided profile *)

(** C6, as stated, fails: the source evaluates no falling ramp (the line
    and [z3] are commented out).  With breakpoints 0, 1, 2, 4 the
    specification's profile has fallen to 1/2 at position 3, the profile of
    [calder_experiment.py] with the breakpoints it has (0, 1, 4) is still 1
    there. *)
Lemma C6_no_falling_ramp :
  nth_error (CalderDensity.dens_func 0 1 4 [Float64.Finite 3] []) 0
  = Some (Float64.Finite 1) /\
  double_sided_spec 0 1 2 4 3 == 1 / 2 /\
  ~ 1 == double_sided_spec 0 1 2 4 3.
Proof.
  split; [reflexivity|]. split; [reflexivity|].
  vm_compute. intros H. discriminate H.
Qed.

(** The profile of the source beside the single-sided one. *)
Lemma calder_matches_single_sided z1 z2 z4 x :
  Float64.gtb x z4 = false ->
  CalderDensity.dens_at z1 z2 z4 x = LwfaDensity.dens_at z1 (z2 - z1) x.
Proof.
  intros Hcut. unfold CalderDensity.dens_at, LwfaDensity.dens_at.
  rewrite Hcut. destruct x as [q| | |]; simpl; try reflexivity.
  case_Qltb q z1; [reflexivity|].
  case_Qltb q z2; case_Qltb q (z1 + (z2 - z1)); try reflexivity; lra.
Qed.

(** C6 (amended): with [z1 < z2 <= z4] the profile of
    [calder_experiment.py] is 0 below [z1], the linear rise
    [(x - z1) / (z2 - z1)] from [z1] up to [z2], flat at 1 from [z2] to [z4]
    included, and 0 above [z4]; there is no [z3] and no falling ramp.  It is
    the specification's double-sided profile with [z3 = z4], and up to [z4]
    it is the single-sided profile with [ramp_start = z1] and
    [ramp_length = z2 - z1]. *)
Theorem C6_profile_of_source (z1 z2 z4 : Q) (z r : ndarray) (i : nat) (x : Q)
        (Hlen : z1 < z2) (H24 : z2 <= z4)
        (Hx : nth_error z i = Some (Float64.Finite x)) :
  exists d,
    nth_error (CalderDensity.dens_func z1 z2 z4 z r) i = Some (Float64.Finite d) /\
    (x < z1 -> d = 0) /\
    (z1 <= x -> x < z2 -> d = (x - z1) / (z2 - z1)) /\
    (z2 <= x -> x <= z4 -> d = 1) /\
    (z4 < x -> d = 0) /\
    d = double_sided_spec z1 z2 z4 z4 x /\
    (x <= z4 ->
     nth_error (LwfaDensity.dens_func z1 (z2 - z1) z r) i
     = Some (Float64.Finite d)).
Proof.
  rewrite (calder_dens_nth _ _ _ _ _ _ _ Hx).
  exists (double_sided_spec z1 z2 z4 z4 x).
  assert (Hval : CalderDensity.dens_at z1 z2 z4 (Float64.Finite x)
                 = Float64.Finite (double_sided_spec z1 z2 z4 z4 x)).
  { unfold CalderDensity.dens_at, double_sided_spec. simpl.
    case_Qltb z4 x.
    - case_Qltb x z1; reflexivity.
    - case_Qltb x z1; [reflexivity|].
      case_Qltb x z2; [|reflexivity].
      case_Qeqb (z2 - z1) 0; [lra|reflexivity]. }
  split; [now rewrite Hval|].
  unfold double_sided_spec.
  repeat split.
  - intros H. case_Qltb x z1; [reflexivity|lra].
  - intros H1 H2. case_Qltb x z1; [lra|]. case_Qltb z4 x; [lra|].
    case_Qltb x z2; [reflexivity|lra].
  - intros H1 H2. case_Qltb x z1; [lra|]. case_Qltb z4 x; [lra|].
    case_Qltb x z2; [lra|reflexivity].
  - intros H. case_Qltb x z1; [reflexivity|].
    case_Qltb z4 x; [reflexivity|lra].
  - intros Hcut. rewrite (lwfa_dens_nth _ _ _ _ _ _ Hx).
    rewrite <- calder_matches_single_sided with (z4 := z4).
    + now rewrite Hval.
    + simpl. now apply Qltb_ge.
Qed.

Lemma C6_profile_of_source_witness :
  exists d,
    nth_error (CalderDensity.dens_func 0e-6 65e-6 1565e-6
                 [Float64.Finite 13e-6] []) 0 = Some (Float64.Finite d) /\
    (13e-6 < 0e-6 -> d = 0) /\
    (0e-6 <= 13e-6 -> 13e-6 < 65e-6 -> d = (13e-6 - 0e-6) / (65e-6 - 0e-6)) /\
    (65e-6 <= 13e-6 -> 13e-6 <= 1565e-6 -> d = 1) /\
    (1565e-6 < 13e-6 -> d = 0) /\
    d = double_sided_spec 0e-6 65e-6 1565e-6 1565e-6 13e-6 /\
    (13e-6 <= 1565e-6 ->
     nth_error (LwfaDensity.dens_func 0e-6 (65e-6 - 0e-6)
                  [Float64.Finite 13e-6] []) 0 = Some (Float64.Finite d)).
Proof.
  apply (C6_profile_of_source 0e-6 65e-6 1565e-6 [Float64.Finite 13e-6] [] 0
           13e-6); [reflexivity | vm_compute; congruence | reflexivity].
Defined.

(** ** C10: the unguarded division by the ramp length *)

(** C10, as stated, fails: a zero-length ramp gives no non-finite density.
    The quotient by zero is inf, -inf or nan, but every such entry is
    replaced by the masks that follow; the densities returned are 0 and 1. *)
Lemma C10_zero_length_ramp_is_finite :
  Np.div (Np.sub [Float64.Finite (-1); Float64.Finite 0; Float64.Finite 1] 0) 0
  = [Float64.NegInf; Float64.NaN; Float64.PosInf] /\
  LwfaDensity.dens_func 0 0
    [Float64.Finite (-1); Float64.Finite 0; Float64.Finite 1] []
  = [Float64.Finite 0; Float64.Finite 1; Float64.Finite 1] /\
  CalderDensity.dens_func 0 0 4
    [Float64.Finite (-1); Float64.Finite 0; Float64.Finite 1] []
  = [Float64.Finite 0; Float64.Finite 1; Float64.Finite 1] /\
  ~ (exists x,
        In x (LwfaDensity.dens_func 0 0
                [Float64.Finite (-1); Float64.Finite 0; Float64.Finite 1] [])
        /\ Float64.is_finite x = false).
Proof.
  repeat split; try reflexivity.
  intros (x & Hin & Hx). vm_compute in Hin.
  destruct Hin as [E|[E|[E|[]]]]; subst x; discriminate Hx.
Qed.

(** C10 (amended): both evaluators divide by the ramp length with no guard
    and raise no error; they return one density per position, and every
    density lies in [[0, 1]] for every ramp length, positive, zero or
    negative, and every input array.  With a zero-length ramp the quotient is
    non-finite at every finite position off the breakpoint, but the densities
    returned are 0 below the breakpoint and 1 from it on (up to the cut-off
    [z4] in [calder_experiment.py]). *)
Theorem C10_density_total_and_bounded (z r : ndarray) :
  (forall rs rl,
     length (LwfaDensity.dens_func rs rl z r) = length z /\
     Forall Float64.in_unit (LwfaDensity.dens_func rs rl z r)) /\
  (forall z1 z2 z4,
     length (CalderDensity.dens_func z1 z2 z4 z r) = length z /\
     Forall Float64.in_unit (CalderDensity.dens_func z1 z2 z4 z r)) /\
  (forall rs q, ~ q == rs ->
     Float64.is_finite (Float64.div (Float64.sub (Float64.Finite q) rs) 0)
     = false) /\
  (forall rs i x, nth_error z i = Some x ->
     nth_error (LwfaDensity.dens_func rs 0 z r) i
     = Some (if Float64.ltb x rs then Float64.Finite 0 else Float64.Finite 1)) /\
  (forall z1 z4 i x, nth_error z i = Some x ->
     nth_error (CalderDensity.dens_func z1 z1 z4 z r) i
     = Some (if Float64.gtb x z4 then Float64.Finite 0
             else if Float64.ltb x z1 then Float64.Finite 0
                  else Float64.Finite 1)).
Proof.
  repeat split.
  - rewrite lwfa_dens_func_pointwise. apply length_map.
  - rewrite lwfa_dens_func_pointwise. apply Forall_map, Forall_forall.
    intros x _. apply lwfa_dens_at_unit.
  - rewrite calder_dens_func_pointwise. apply length_map.
  - rewrite calder_dens_func_pointwise. apply Forall_map, Forall_forall.
    intros x _. apply calder_dens_at_unit.
  - intros rs q Hq. simpl.
    case_Qltb 0 (q - rs); [reflexivity|].
    case_Qltb (q - rs) 0; [reflexivity|]. lra.
  - intros rs i x Hx. rewrite (lwfa_dens_nth _ _ _ _ _ _ Hx). f_equal.
    unfold LwfaDensity.dens_at.
    destruct (Float64.ltb x rs) eqn:E; [reflexivity|].
    destruct x as [q| | |]; simpl in *; try reflexivity; try discriminate.
    apply Qltb_ge in E. case_Qltb q (rs + 0); [lra|reflexivity].
  - intros z1 z4 i x Hx. rewrite (calder_dens_nth _ _ _ _ _ _ _ Hx). f_equal.
    unfold CalderDensity.dens_at.
    destruct (Float64.gtb x z4); [reflexivity|].
    destruct (Float64.ltb x z1); reflexivity.
Qed.

Lemma C10_density_total_and_bounded_witness :
  Float64.is_finite (Float64.div (Float64.sub (Float64.Finite 1) 0) 0) = false /\
  nth_error (LwfaDensity.dens_func 0 0 [Float64.Finite 1] []) 0
  = Some (if Float64.ltb (Float64.Finite 1) 0
          then Float64.Finite 0 else Float64.Finite 1).
Proof.
  destruct (C10_density_total_and_bounded [Float64.Finite 1] [])
    as (_ & _ & Hdiv & Hval & _).
  split.
  - apply Hdiv. vm_compute. congruence.
  - apply Hval. reflexivity.
Defined.

(** ** Python division and the script monad *)

Lemma py_div_ok (x y : Q) : ~ y == 0 -> py_div x y = Ok (x / y).
Proof.
  intros Hy. unfold py_div. case_Qeqb y 0; [contradiction|reflexivity].
Qed.

Lemma py_div_inv (x y q : Q) : py_div x y = Ok q -> ~ y == 0 /\ q = x / y.
Proof.
  unfold py_div. case_Qeqb y 0; [discriminate|].
  intros E. injection E as <-. now split.
Qed.

Lemma inject_Z_nonzero (n : Z) : n <> 0%Z -> ~ inject_Z n == 0.
Proof.
  intros Hn E. apply Hn. unfold Qeq in E. simpl in E. lia.
Qed.

Lemma c_nonzero : ~ c == 0.
Proof. intros E. discriminate E. Qed.

Lemma lwfa_dt_value cfg d :
  Lwfa.dt cfg = Ok d ->
  d = (Lwfa.zmax cfg - Lwfa.zmin cfg) / inject_Z (Lwfa.Nz cfg) / c.
Proof.
  unfold Lwfa.dt, rbind.
  destruct (py_div (Lwfa.zmax cfg - Lwfa.zmin cfg) (inject_Z (Lwfa.Nz cfg)))
    as [q|e] eqn:E1; [|discriminate].
  apply py_div_inv in E1 as (_ & ->).
  intros E2. now apply py_div_inv in E2 as (_ & ->).
Qed.

Lemma calder_dt_value cfg d :
  Calder.dt cfg = Ok d ->
  d = (Calder.zmax cfg - Calder.zmin cfg) / inject_Z (Calder.Nz cfg) / c.
Proof.
  unfold Calder.dt, rbind.
  destruct (py_div (Calder.zmax cfg - Calder.zmin cfg)
                   (inject_Z (Calder.Nz cfg))) as [q|e] eqn:E1; [|discriminate].
  apply py_div_inv in E1 as (_ & ->).
  intros E2. now apply py_div_inv in E2 as (_ & ->).
Qed.

Lemma lwfa_dt_ok cfg :
  Lwfa.Nz cfg <> 0%Z ->
  Lwfa.dt cfg
  = Ok ((Lwfa.zmax cfg - Lwfa.zmin cfg) / inject_Z (Lwfa.Nz cfg) / c).
Proof.
  intros HN. unfold Lwfa.dt.
  rewrite py_div_ok by now apply inject_Z_nonzero.
  simpl. apply py_div_ok, c_nonzero.
Qed.

Lemma calder_dt_ok cfg :
  Calder.Nz cfg <> 0%Z ->
  Calder.dt cfg
  = Ok ((Calder.zmax cfg - Calder.zmin cfg) / inject_Z (Calder.Nz cfg) / c).
Proof.
  intros HN. unfold Calder.dt.
  rewrite py_div_ok by now apply inject_Z_nonzero.
  simpl. apply py_div_ok, c_nonzero.
Qed.

(** The calls of a sequence come from its two parts. *)
Lemma trace_bind {A B} (m : script A) (k : A -> script B) ev :
  In ev (trace (bind m k)) ->
  In ev (trace m) \/ exists a, outcome m = Ok a /\ In ev (trace (k a)).
Proof.
  unfold bind, trace, outcome. destruct m as [t1 [a|e]]; simpl.
  - destruct (k a) as [t2 r] eqn:E. simpl. intros H.
    apply in_app_or in H as [H|H]; [now left|].
    right. exists a. rewrite E. now split.
  - now left.
Qed.

Lemma trace_bind_ok {A B} (m : script A) (k : A -> script B) a :
  outcome m = Ok a -> trace (bind m k) = trace m ++ trace (k a).
Proof.
  unfold bind, trace, outcome. destruct m as [t1 r]; simpl. intros ->.
  now destruct (k a).
Qed.

Lemma for_each_gather_trace (fld : Z -> grid) ms ev :
  In ev (trace (for_each (fun m => bind (emit (gather_grid m))
                                        (fun _ => ret (fld m))) ms)) ->
  exists m, ev = gather_grid m.
Proof.
  induction ms as [|m ms IH]; cbn [for_each]; [intros []|].
  intros H. apply trace_bind in H as [H|(a & _ & H)].
  - destruct H as [<-|[]]. now exists m.
  - apply trace_bind in H as [H|(b & _ & H)]; [now apply IH|].
    destruct H.
Qed.

(** Every call of a script, by cases along its sequence of statements. *)
Ltac in_trace H :=
  cbv beta in H;
  lazymatch type of H with
  | In _ (trace (bind _ _)) =>
      apply trace_bind in H as [H|(? & _ & H)]; [in_trace H | in_trace H]
  | In _ (trace (if ?b then _ else _)) => destruct b eqn:?; in_trace H
  | In _ (trace (new_Simulation _ _ _ _ _ _ _ _)) =>
      unfold new_Simulation in H; in_trace H
  | In _ (trace (emit _)) => destruct H as [H|[]]; symmetry in H
  | In _ (trace (ret _)) => destruct H
  | In _ (trace (lift _)) => destruct H
  | In _ (trace (for_each _ _)) =>
      apply for_each_gather_trace in H as (? & H)
  | _ => idtac
  end.

Lemma lwfa_main_timestep cfg d T fld ev t :
  In ev (trace (Lwfa.main cfg d T fld)) -> timestep_of ev = Some t -> t = d.
Proof.
  unfold Lwfa.main. intros H Ht.
  in_trace H; subst ev; simpl in Ht; congruence.
Qed.

Lemma calder_main_timestep cfg d ev t :
  In ev (trace (Calder.main cfg d)) -> timestep_of ev = Some t -> t = d.
Proof.
  unfold Calder.main. intros H Ht.
  in_trace H; subst ev; simpl in Ht; congruence.
Qed.

(** ** C2: the timestep *)

(** C2: in both scripts the timestep is [(zmax - zmin) / Nz / c]: that is
    the value of [dt] whenever [Nz] is not zero (the division raises
    otherwise), the [Simulation] constructor is the first call of the run and
    receives it, and no [Simulation] call of a run carries another timestep.
    The configuration has no timestep of its own. *)
Theorem C2_timestep_derived :
  (forall (cfg : Lwfa.config) (fld : Z -> grid),
     let dt := (Lwfa.zmax cfg - Lwfa.zmin cfg) / inject_Z (Lwfa.Nz cfg) / c in
     (Lwfa.Nz cfg <> 0%Z -> Lwfa.dt cfg = Ok dt) /\
     (Lwfa.Nz cfg <> 0%Z -> ~ Lwfa.v_window cfg == 0 ->
      hd_error (trace (Lwfa.run cfg fld))
      = Some (Simulation (Lwfa.Nz cfg) (Lwfa.zmax cfg) (Lwfa.Nr cfg)
                         (Lwfa.rmax cfg) (Lwfa.Nm cfg) dt None
                         (Lwfa.zmin cfg))) /\
     (forall ev t, In ev (trace (Lwfa.run cfg fld)) ->
                   timestep_of ev = Some t -> t = dt)) /\
  (forall (cfg : Calder.config),
     let dt :=
       (Calder.zmax cfg - Calder.zmin cfg) / inject_Z (Calder.Nz cfg) / c in
     (Calder.Nz cfg <> 0%Z -> Calder.dt cfg = Ok dt) /\
     (Calder.Nz cfg <> 0%Z ->
      exists p,
        hd_error (trace (Calder.run cfg))
        = Some (Simulation (Calder.Nz cfg) (Calder.zmax cfg) (Calder.Nr cfg)
                           (Calder.rmax cfg) (Calder.Nm cfg) dt (Some p)
                           (Calder.zmin cfg))) /\
     (forall ev t, In ev (trace (Calder.run cfg)) ->
                   timestep_of ev = Some t -> t = dt)).
Proof.
  split.
  - intros cfg fld dt. split; [apply lwfa_dt_ok|]. split.
    + intros HN Hv. unfold Lwfa.run.
      rewrite (trace_bind_ok _ _ dt) by (apply lwfa_dt_ok, HN).
      rewrite (trace_bind_ok (lift (Lwfa.T_interact cfg)) _ _ (py_div_ok _ _ Hv)).
      unfold Lwfa.main.
      rewrite (trace_bind_ok _ _ (Handle dt)) by reflexivity.
      reflexivity.
    + intros ev t H Ht. unfold Lwfa.run in H.
      apply trace_bind in H as [[]|(d & Hd & H)].
      apply trace_bind in H as [[]|(T & _ & H)].
      rewrite (lwfa_main_timestep _ _ _ _ _ _ H Ht).
      apply lwfa_dt_value, Hd.
  - intros cfg dt. split; [apply calder_dt_ok|]. split.
    + intros HN. unfold Calder.run.
      rewrite (trace_bind_ok _ _ dt) by (apply calder_dt_ok, HN).
      unfold Calder.main. eexists.
      rewrite (trace_bind_ok _ _ (Handle dt)) by reflexivity.
      reflexivity.
    + intros ev t H Ht. unfold Calder.run in H.
      apply trace_bind in H as [[]|(d & Hd & H)].
      rewrite (calder_main_timestep _ _ _ _ H Ht).
      apply calder_dt_value, Hd.
Qed.

Lemma C2_timestep_derived_witness :
  Lwfa.dt Lwfa.defaults = Ok ((30e-6 - -70e-6) / inject_Z 4096 / c) /\
  (exists p,
     hd_error (trace (Calder.run Calder.defaults))
     = Some (Simulation 5000 20e-6 600 114.59e-6 7
                        ((20e-6 - -41.11e-6) / inject_Z 5000 / c) (Some p)
                        (-41.11e-6))).
Proof.
  destruct C2_timestep_derived as (HL & HC).
  split.
  - apply (HL Lwfa.defaults sample_fld). vm_compute. congruence.
  - apply (HC Calder.defaults). vm_compute. congruence.
Defined.

(** ** C3: the number of steps *)

Lemma magnitude_pos (m : positive) (e : Z) : 0 < Binary64.magnitude m e.
Proof.
  unfold Binary64.magnitude. destruct (0 <=? e)%Z eqn:E.
  - apply Z.leb_le in E. unfold Qlt. cbn [Qnum Qden inject_Z].
    pose proof (Z.pow_pos_nonneg 2 e). lia.
  - reflexivity.
Qed.

Lemma floor_magnitude (m : positive) (e : Z) :
  Qfloor (Binary64.magnitude m e) = Binary64.integer_part m e.
Proof.
  unfold Binary64.magnitude, Binary64.integer_part.
  destruct (0 <=? e)%Z eqn:E; [apply Qfloor_Z|].
  apply Z.leb_gt in E. cbn [Qfloor].
  rewrite Z2Pos.id by (apply Z.pow_pos_nonneg; lia). reflexivity.
Qed.

(** [int] of a non-negative float is the floor of its value, [int] of a
    non-positive one the ceiling. *)
Lemma b64_int_floor (x : float) (v : Q) :
  Binary64.value x = Some v -> 0 <= v -> Binary64.py_int x = Ok (Qfloor v).
Proof.
  unfold Binary64.value, Binary64.py_int.
  destruct (Prim2SF x) as [s|s| |s m e]; try discriminate.
  - intros E _. injection E as <-. reflexivity.
  - intros E Hv. injection E as <-. pose proof (magnitude_pos m e).
    destruct s; [lra|]. now rewrite floor_magnitude.
Qed.

Lemma b64_int_ceiling (x : float) (v : Q) :
  Binary64.value x = Some v -> v <= 0 -> Binary64.py_int x = Ok (Qceiling v).
Proof.
  unfold Binary64.value, Binary64.py_int.
  destruct (Prim2SF x) as [s|s| |s m e]; try discriminate.
  - intros E _. injection E as <-. reflexivity.
  - intros E Hv. injection E as <-. pose proof (magnitude_pos m e).
    destruct s; [|lra]. unfold Qceiling.
    rewrite Qopp_involutive. now rewrite floor_magnitude.
Qed.

Lemma b64_N_step_div (T dt : float) :
  PrimFloat.eqb dt 0%float = false ->
  Binary64.N_step T dt = Binary64.py_int (PrimFloat.div T dt).
Proof.
  intros H. unfold Binary64.N_step, Binary64.py_div. now rewrite H.
Qed.

Lemma Qfloor_between (v : Q) (n : Z) :
  inject_Z n <= v -> v < inject_Z (n + 1) -> Qfloor v = n.
Proof.
  intros Hlo Hhi.
  pose proof (Qfloor_le v) as H1. pose proof (Qlt_floor v) as H2.
  assert (Ha : inject_Z n < inject_Z (Qfloor v + 1)) by lra.
  assert (Hb : inject_Z (Qfloor v) < inject_Z (n + 1)) by lra.
  rewrite <- Zlt_Qlt in Ha, Hb. lia.
Qed.

(** C3: the step count is [int] of the binary64 quotient [T_interact / dt]:
    for a non-negative quotient it is the floor of the quotient, the
    largest integer not above it, never the nearest integer; so a quotient
    from 1000 up to, but below, 1001 gives 1000.  With
    [T_interact = 1000.9 * dt] the count is 1000 at the timesteps of both
    scripts and at the timesteps 1, 0.1, 1e-17 and 3.3e-9; the parameters of
    [lwfa_script.py] give 36864 steps. *)
Theorem C3_step_count_truncates :
  (forall (T dt : float) (v : Q),
     PrimFloat.eqb dt 0%float = false ->
     Binary64.value (PrimFloat.div T dt) = Some v -> 0 <= v ->
     Binary64.N_step T dt = Ok (Qfloor v) /\
     inject_Z (Qfloor v) <= v /\ v < inject_Z (Qfloor v + 1)) /\
  (forall (T dt : float) (v : Q),
     PrimFloat.eqb dt 0%float = false ->
     Binary64.value (PrimFloat.div T dt) = Some v ->
     1000 <= v -> v < 1001 ->
     Binary64.N_step T dt = Ok 1000%Z) /\
  rbind (Binary64.dt Binary64.lwfa_box)
        (fun dt => Binary64.N_step (PrimFloat.mul 1000.9%float dt) dt)
  = Ok 1000%Z /\
  rbind (Binary64.dt Binary64.calder_box)
        (fun dt => Binary64.N_step (PrimFloat.mul 1000.9%float dt) dt)
  = Ok 1000%Z /\
  Forall (fun dt => Binary64.N_step (PrimFloat.mul 1000.9%float dt) dt
                    = Ok 1000%Z)
         [1%float; 0.1%float; 1e-17%float; 3.3e-9%float] /\
  Binary64.step_count Binary64.lwfa_box = Ok 36864%Z.
Proof.
  split; [|split; [|split; [|split; [|split]]]].
  - intros T dt v Hdt Hv Hpos. split; [|split].
    + rewrite b64_N_step_div by exact Hdt. now apply b64_int_floor.
    + apply Qfloor_le.
    + apply Qlt_floor.
  - intros T dt v Hdt Hv Hlo Hhi.
    rewrite b64_N_step_div by exact Hdt.
    rewrite (b64_int_floor _ v Hv) by lra.
    f_equal. apply Qfloor_between; [exact Hlo | exact Hhi].
  - vm_compute. reflexivity.
  - vm_compute. reflexivity.
  - repeat (constructor; [vm_compute; reflexivity|]). constructor.
  - vm_compute. reflexivity.
Qed.

Lemma C3_step_count_truncates_witness :
  Binary64.N_step 1%float 0.1%float = Ok 10%Z /\
  Binary64.N_step 2001.8%float 2%float = Ok 1000%Z.
Proof.
  destruct C3_step_count_truncates as (Hfloor & Hex & _).
  split.
  - apply (Hfloor 1%float 0.1%float (5629499534213120 # 562949953421312)
                  eq_refl eq_refl).
    vm_compute. congruence.
  - eapply (Hex 2001.8%float 2%float);
      [reflexivity | vm_compute; reflexivity | vm_compute; congruence
       | vm_compute; reflexivity].
Defined.

(** ** C1 and C8: restart and particle tracking *)

Lemma existsb_false {A} (f : A -> bool) (l : list A) :
  (forall a, In a l -> f a = false) -> existsb f l = false.
Proof.
  intros H. induction l as [|a l IH]; [reflexivity|]. simpl.
  rewrite (H a) by now left. apply IH. intros b Hb. apply H. now right.
Qed.

(** The first calls of [main], up to the branch on [use_restart]. *)
Lemma lwfa_main_prefix cfg d T fld :
  exists p rest,
    trace (Lwfa.main cfg d T fld)
    = [Simulation (Lwfa.Nz cfg) (Lwfa.zmax cfg) (Lwfa.Nr cfg) (Lwfa.rmax cfg)
                  (Lwfa.Nm cfg) d None (Lwfa.zmin cfg);
       add_laser_pulse (Lwfa.a0 cfg) (Lwfa.w0 cfg) (Lwfa.ctau cfg / c)
                       (Lwfa.z0 cfg) (Lwfa.lambda0 cfg);
       add_new_species p]
      ++ trace (if is_False (Lwfa.use_restart cfg)
                then if truthy (Lwfa.track_electrons cfg)
                     then emit track else ret tt
                else emit restart_from_checkpoint)
      ++ rest.
Proof.
  unfold Lwfa.main.
  rewrite (trace_bind_ok _ _ (Handle d)) by reflexivity.
  rewrite (trace_bind_ok _ _ (Lwfa.ctau cfg / c))
    by apply (py_div_ok _ _ c_nonzero).
  rewrite (trace_bind_ok _ _ tt) by reflexivity.
  rewrite (trace_bind_ok _ _ tt) by reflexivity.
  rewrite (trace_bind_ok _ _ tt)
    by (destruct (is_False _), (truthy (Lwfa.track_electrons cfg));
        reflexivity).
  do 2 eexists. reflexivity.
Qed.

Lemma calder_main_prefix cfg d :
  exists p rest,
    trace (Calder.main cfg d)
    = [Simulation (Calder.Nz cfg) (Calder.zmax cfg) (Calder.Nr cfg)
                  (Calder.rmax cfg) (Calder.Nm cfg) d (Some p)
                  (Calder.zmin cfg);
       add_laser (Calder.a0 cfg) (Calder.w0 cfg) (Calder.ctau cfg)
                 (Calder.z0 cfg)]
      ++ trace (if is_False (Calder.use_restart cfg)
                then if truthy (Calder.track_electrons cfg)
                     then emit track else ret tt
                else emit restart_from_checkpoint)
      ++ rest.
Proof.
  unfold Calder.main.
  rewrite (trace_bind_ok _ _ (Handle d)) by reflexivity.
  rewrite (trace_bind_ok _ _ tt) by reflexivity.
  rewrite (trace_bind_ok _ _ tt)
    by (destruct (is_False _), (truthy (Calder.track_electrons cfg));
        reflexivity).
  do 2 eexists. reflexivity.
Qed.

Lemma lwfa_run_main cfg fld :
  Lwfa.Nz cfg <> 0%Z -> ~ Lwfa.v_window cfg == 0 ->
  exists d T, trace (Lwfa.run cfg fld) = trace (Lwfa.main cfg d T fld).
Proof.
  intros HN Hv. unfold Lwfa.run. do 2 eexists.
  rewrite (trace_bind_ok (lift (Lwfa.dt cfg)) _ _ (lwfa_dt_ok cfg HN)).
  rewrite (trace_bind_ok (lift (Lwfa.T_interact cfg)) _ _ (py_div_ok _ _ Hv)).
  reflexivity.
Qed.

Lemma calder_run_main cfg :
  Calder.Nz cfg <> 0%Z ->
  exists d, trace (Calder.run cfg) = trace (Calder.main cfg d).
Proof.
  intros HN. unfold Calder.run. eexists.
  rewrite (trace_bind_ok (lift (Calder.dt cfg)) _ _ (calder_dt_ok cfg HN)).
  reflexivity.
Qed.

(** On a restart no call of a run is [track]. *)
Lemma lwfa_no_track_on_restart cfg fld :
  is_False (Lwfa.use_restart cfg) = false ->
  existsb is_track (trace (Lwfa.run cfg fld)) = false.
Proof.
  intros Hr. apply existsb_false. intros ev H. unfold Lwfa.run in H.
  apply trace_bind in H as [[]|(d & _ & H)].
  apply trace_bind in H as [[]|(T & _ & H)].
  unfold Lwfa.main in H.
  in_trace H; subst ev; try reflexivity; congruence.
Qed.

Lemma calder_no_track_on_restart cfg :
  is_False (Calder.use_restart cfg) = false ->
  existsb is_track (trace (Calder.run cfg)) = false.
Proof.
  intros Hr. apply existsb_false. intros ev H. unfold Calder.run in H.
  apply trace_bind in H as [[]|(d & _ & H)].
  unfold Calder.main in H.
  in_trace H; subst ev; try reflexivity; congruence.
Qed.

(** C1, as stated, fails: with [use_restart = True] both scripts still issue
    the species-load call ([add_new_species], or [Simulation] with particle
    parameters); it is not under the branch on [use_restart]. *)
Lemma C1_species_loaded_on_restart :
  existsb species_load
    (trace (Lwfa.run (Lwfa.with_flags Lwfa.defaults (PyBool true) (PyBool true))
                     sample_fld)) = true /\
  existsb species_load
    (trace (Calder.run
              (Calder.with_flags Calder.defaults (PyBool true) (PyBool true))))
  = true.
Proof. split; vm_compute; reflexivity. Qed.

(** C1 (amended): when restart is requested ([use_restart] is not [False])
    and the module-level divisions succeed, the run calls
    [restart_from_checkpoint], after the species-load call, which is issued
    as on a fresh run, and it issues no [track] call. *)
Theorem C1_restart_after_species_load :
  (forall (cfg : Lwfa.config) (fld : Z -> grid),
     is_False (Lwfa.use_restart cfg) = false ->
     Lwfa.Nz cfg <> 0%Z -> ~ Lwfa.v_window cfg == 0 ->
     (exists pre post,
        trace (Lwfa.run cfg fld) = pre ++ restart_from_checkpoint :: post /\
        existsb species_load pre = true) /\
     existsb is_track (trace (Lwfa.run cfg fld)) = false) /\
  (forall cfg : Calder.config,
     is_False (Calder.use_restart cfg) = false ->
     Calder.Nz cfg <> 0%Z ->
     (exists pre post,
        trace (Calder.run cfg) = pre ++ restart_from_checkpoint :: post /\
        existsb species_load pre = true) /\
     existsb is_track (trace (Calder.run cfg)) = false).
Proof.
  split.
  - intros cfg fld Hr HN Hv. split; [|now apply lwfa_no_track_on_restart].
    destruct (lwfa_run_main cfg fld HN Hv) as (d & T & ->).
    destruct (lwfa_main_prefix cfg d T fld) as (p & rest & ->).
    rewrite Hr. eexists. exists rest. split; reflexivity.
  - intros cfg Hr HN. split; [|now apply calder_no_track_on_restart].
    destruct (calder_run_main cfg HN) as (d & ->).
    destruct (calder_main_prefix cfg d) as (p & rest & ->).
    rewrite Hr. eexists. exists rest. split; reflexivity.
Qed.

Lemma C1_restart_after_species_load_witness :
  ((exists pre post,
      trace (Lwfa.run (Lwfa.with_flags Lwfa.defaults (PyBool true) (PyBool true))
                      sample_fld)
      = pre ++ restart_from_checkpoint :: post /\
      existsb species_load pre = true) /\
   existsb is_track
     (trace (Lwfa.run (Lwfa.with_flags Lwfa.defaults (PyBool true) (PyBool true))
                      sample_fld)) = false) /\
  ((exists pre post,
      trace (Calder.run
               (Calder.with_flags Calder.defaults (PyBool true) (PyBool true)))
      = pre ++ restart_from_checkpoint :: post /\
      existsb species_load pre = true) /\
   existsb is_track
     (trace (Calder.run
               (Calder.with_flags Calder.defaults (PyBool true) (PyBool true))))
   = false).
Proof.
  destruct C1_restart_after_species_load as (HL & HC).
  split.
  - apply HL; [reflexivity | vm_compute; congruence | vm_compute; congruence].
  - apply HC; [reflexivity | vm_compute; congruence].
Defined.

(** C8: with [use_restart = False] and [track_electrons = True] the [track]
    call is issued, before any [step] call (given that the module-level
    divisions succeed, so that [main] is entered); with [use_restart = True]
    no call of the run is [track], whatever [track_electrons] is. *)
Theorem C8_tracking_only_on_fresh_runs :
  (forall (cfg : Lwfa.config) (fld : Z -> grid),
     Lwfa.use_restart cfg = PyBool false ->
     Lwfa.track_electrons cfg = PyBool true ->
     Lwfa.Nz cfg <> 0%Z -> ~ Lwfa.v_window cfg == 0 ->
     issued_before_stepping track (trace (Lwfa.run cfg fld))) /\
  (forall (cfg : Lwfa.config) (fld : Z -> grid),
     Lwfa.use_restart cfg = PyBool true ->
     existsb is_track (trace (Lwfa.run cfg fld)) = false) /\
  (forall cfg : Calder.config,
     Calder.use_restart cfg = PyBool false ->
     Calder.track_electrons cfg = PyBool true ->
     Calder.Nz cfg <> 0%Z ->
     issued_before_stepping track (trace (Calder.run cfg))) /\
  (forall cfg : Calder.config,
     Calder.use_restart cfg = PyBool true ->
     existsb is_track (trace (Calder.run cfg)) = false).
Proof.
  split; [|split; [|split]].
  - intros cfg fld Hr Ht HN Hv.
    destruct (lwfa_run_main cfg fld HN Hv) as (d & T & ->).
    destruct (lwfa_main_prefix cfg d T fld) as (p & rest & ->).
    rewrite Hr, Ht. eexists. exists rest. split; reflexivity.
  - intros cfg fld Hr. apply lwfa_no_track_on_restart. now rewrite Hr.
  - intros cfg Hr Ht HN.
    destruct (calder_run_main cfg HN) as (d & ->).
    destruct (calder_main_prefix cfg d) as (p & rest & ->).
    rewrite Hr, Ht. eexists. exists rest. split; reflexivity.
  - intros cfg Hr. apply calder_no_track_on_restart. now rewrite Hr.
Qed.

Lemma C8_tracking_only_on_fresh_runs_witness :
  issued_before_stepping track (trace (Lwfa.run Lwfa.defaults sample_fld)) /\
  existsb is_track
    (trace (Lwfa.run (Lwfa.with_flags Lwfa.defaults (PyBool true) (PyBool true))
                     sample_fld)) = false /\
  issued_before_stepping track
    (trace (Calder.run
              (Calder.with_flags Calder.defaults (PyBool false) (PyBool true))))
  /\
  existsb is_track
    (trace (Calder.run
              (Calder.with_flags Calder.defaults (PyBool true) (PyBool true))))
  = false.
Proof.
  destruct C8_tracking_only_on_fresh_runs as (H1 & H2 & H3 & H4).
  split; [|split; [|split]].
  - apply H1; [reflexivity | reflexivity | vm_compute; congruence
               | vm_compute; congruence].
  - apply H2. reflexivity.
  - apply H3; [reflexivity | reflexivity | vm_compute; congruence].
  - apply H4. reflexivity.
Defined.

(** ** C9: the staircase of the histogram *)

Section StaircaseFacts.
Context {A : Type}.
Implicit Types a b l : list A.

Lemma flatten_T_pair a b :
  Np2.flatten (Np2.T [a; b]) = Histogram.interleave a b.
Proof.
  unfold Np2.flatten. cbn [Np2.T]. revert b.
  induction a as [|x a IH]; intros [|y b]; try reflexivity.
  simpl. now rewrite IH.
Qed.

Lemma interleave_length a b :
  length a = length b ->
  length (Histogram.interleave a b) = (2 * length a)%nat.
Proof.
  revert b. induction a as [|x a IH]; intros [|y b] H; try discriminate;
    [reflexivity|].
  simpl in *. rewrite (IH b) by lia. lia.
Qed.

Lemma interleave_nth a b i d :
  length a = length b -> (i < length a)%nat ->
  nth (2 * i) (Histogram.interleave a b) d = nth i a d /\
  nth (2 * i + 1) (Histogram.interleave a b) d = nth i b d.
Proof.
  revert b i. induction a as [|x a IH]; intros [|y b] i H Hi;
    try discriminate; simpl in Hi; [lia|].
  destruct i as [|i]; [now split|].
  replace (2 * S i)%nat with (S (S (2 * i))) by lia.
  replace (S (S (2 * i)) + 1)%nat with (S (S (2 * i + 1))) by lia.
  simpl in H. cbn [Histogram.interleave nth]. apply IH; lia.
Qed.

Lemma interleave_evens a b :
  length a = length b -> Histogram.evens (Histogram.interleave a b) = a.
Proof.
  revert b. induction a as [|x a IH]; intros [|y b] H; try discriminate;
    [reflexivity|].
  simpl in *. f_equal. apply IH. lia.
Qed.

Lemma interleave_odds a b :
  length a = length b -> Histogram.odds (Histogram.interleave a b) = b.
Proof.
  unfold Histogram.odds.
  revert b. induction a as [|x a IH]; intros [|y b] H; try discriminate;
    [reflexivity|].
  cbn [Histogram.interleave tl]. simpl in H.
  destruct a as [|x' a], b as [|y' b]; try discriminate; [reflexivity|].
  cbn [Histogram.interleave Histogram.evens]. f_equal.
  specialize (IH (y' :: b)). cbn [Histogram.interleave tl] in IH.
  apply IH. simpl in *. lia.
Qed.

Lemma interleave_In a b x :
  length a = length b ->
  In x (Histogram.interleave a b) <-> In x a \/ In x b.
Proof.
  revert b. induction a as [|y a IH]; intros [|y' b] H; try discriminate.
  - simpl. tauto.
  - simpl in H. cbn [Histogram.interleave In]. rewrite (IH b) by lia. tauto.
Qed.

Lemma removelast_length l : length (removelast l) = (length l - 1)%nat.
Proof.
  induction l as [|x [|y l] IH]; try reflexivity.
  change (removelast (x :: y :: l)) with (x :: removelast (y :: l)).
  cbn [length] in *. lia.
Qed.

Lemma removelast_nth l i d :
  (S i < length l)%nat -> nth i (removelast l) d = nth i l d.
Proof.
  revert i. induction l as [|x [|y l] IH]; intros i Hi; simpl in Hi; try lia.
  change (removelast (x :: y :: l)) with (x :: removelast (y :: l)).
  destruct i as [|i]; [reflexivity|].
  cbn [nth]. apply IH. simpl. lia.
Qed.

Lemma removelast_In l x : In x (removelast l) -> In x l.
Proof.
  induction l as [|y [|z l] IH]; [intros [] | intros [] |].
  change (removelast (y :: z :: l)) with (y :: removelast (z :: l)).
  intros [<-|H]; [now left | right; now apply IH].
Qed.

Lemma tl_nth l i d : nth i (tl l) d = nth (S i) l d.
Proof. destruct l; [now destruct i | reflexivity]. Qed.

Lemma In_edges l x :
  (2 <= length l)%nat -> In x l -> In x (removelast l) \/ In x (tl l).
Proof.
  destruct l as [|y [|z l]]; simpl; try lia.
  intros _ [<-|H]; [left; now left | now right].
Qed.
End StaircaseFacts.

(** C9: for a histogram of [n] bins ([n + 1] edges, [n] counts) the staircase
    has [2 n] abscissas and [2 n] ordinates; bin [i] gives the points
    [(edges[i], counts[i])] and [(edges[i+1], counts[i])] at positions [2 i]
    and [2 i + 1]; the abscissas at even positions are the left edges, those
    at odd positions the right edges, and the ordinates at even and at odd
    positions are the counts, so that every value of the staircase is an edge
    or a count of the histogram and, with at least one bin, every edge and
    every count is in it. *)
Theorem C9_staircase {A : Type} (edges counts : list A) (n : nat)
        (Hc : length counts = n) (He : length edges = S n) :
  length (Histogram.x_axis edges) = (2 * n)%nat /\
  length (Histogram.y_axis counts) = (2 * n)%nat /\
  (forall i d, (i < n)%nat ->
     nth (2 * i) (Histogram.x_axis edges) d = nth i edges d /\
     nth (2 * i) (Histogram.y_axis counts) d = nth i counts d /\
     nth (2 * i + 1) (Histogram.x_axis edges) d = nth (S i) edges d /\
     nth (2 * i + 1) (Histogram.y_axis counts) d = nth i counts d) /\
  Histogram.evens (Histogram.x_axis edges) = removelast edges /\
  Histogram.odds (Histogram.x_axis edges) = tl edges /\
  Histogram.evens (Histogram.y_axis counts) = counts /\
  Histogram.odds (Histogram.y_axis counts) = counts /\
  (forall a, In a (Histogram.x_axis edges) -> In a edges) /\
  (forall a, (0 < n)%nat -> In a edges -> In a (Histogram.x_axis edges)) /\
  (forall a, In a (Histogram.y_axis counts) <-> In a counts).
Proof.
  unfold Histogram.x_axis, Histogram.y_axis. rewrite !flatten_T_pair.
  assert (Hl : length (removelast edges) = n)
    by (rewrite removelast_length; lia).
  assert (Hr : length (tl edges) = n) by (destruct edges; simpl in *; lia).
  assert (Hlr : length (removelast edges) = length (tl edges)) by lia.
  split; [rewrite interleave_length; lia|].
  split; [rewrite interleave_length; lia|].
  split.
  { intros i d Hi.
    destruct (interleave_nth (removelast edges) (tl edges) i d Hlr)
      as (E1 & E2); [lia|].
    destruct (interleave_nth counts counts i d eq_refl) as (E3 & E4); [lia|].
    rewrite E1, E2, E3, E4, tl_nth, removelast_nth by lia. now repeat split. }
  split; [now apply interleave_evens|].
  split; [now apply interleave_odds|].
  split; [now apply interleave_evens|].
  split; [now apply interleave_odds|].
  split.
  { intros a Ha. apply (interleave_In _ _ _ Hlr) in Ha as [Ha|Ha].
    - now apply removelast_In.
    - destruct edges; [destruct Ha | now right]. }
  split.
  { intros a Hn Ha. apply interleave_In; [exact Hlr|].
    apply In_edges; [lia|exact Ha]. }
  intros a. rewrite interleave_In by reflexivity. tauto.
Qed.

Lemma C9_staircase_witness :
  Histogram.x_axis [1; 2; 3; 4]%Z = [1; 2; 2; 3; 3; 4]%Z /\
  Histogram.y_axis [10; 20; 30]%Z = [10; 10; 20; 20; 30; 30]%Z /\
  Histogram.evens (Histogram.x_axis [1; 2; 3; 4]%Z) = removelast [1; 2; 3; 4]%Z
  /\
  Histogram.odds (Histogram.y_axis [10; 20; 30]%Z) = [10; 20; 30]%Z.
Proof.
  destruct (C9_staircase [1; 2; 3; 4]%Z [10; 20; 30]%Z 3 eq_refl eq_refl)
    as (_ & _ & _ & He & _ & _ & Ho & _).
  split; [reflexivity|]. split; [reflexivity|].
  split; [exact He | exact Ho].
Defined.

(** ** C7: the field slice *)

Section ArrayFacts.
Context {A : Type}.
Implicit Types (m : list (list A)) (row : list A).

Lemma rect_tail (R C : nat) row m :
  Np2.rect (S R) C (row :: m) -> length row = C /\ Np2.rect R C m.
Proof.
  intros [Hl Hf]. inversion Hf; subst. simpl in Hl.
  repeat split; [lia | assumption].
Qed.

Lemma shape_rect (R C : nat) m : Np2.rect R C m -> Np2.shape m = repeat C R.
Proof.
  intros [<- Hf]. unfold Np2.shape.
  induction Hf as [|row m Hr _ IH]; [reflexivity|].
  simpl. now rewrite Hr, IH.
Qed.

Lemma T_rect (R C : nat) m :
  (1 <= R)%nat -> Np2.rect R C m -> Np2.rect C R (Np2.T m).
Proof.
  revert R. induction m as [|row m IH]; intros R HR Hm.
  - destruct Hm as [Hl _]. simpl in Hl. lia.
  - destruct R as [|R]; [lia|].
    apply rect_tail in Hm as (Hrow & Hm).
    destruct m as [|r2 m].
    + destruct Hm as [<- _]. cbn [Np2.T]. split.
      * now rewrite length_map.
      * apply Forall_map, Forall_forall. reflexivity.
    + assert (HR' : (1 <= R)%nat) by (destruct Hm as [<- _]; simpl; lia).
      destruct (IH R HR' Hm) as [Hl Hf].
      change (Np2.T (row :: r2 :: m))
        with (map (fun '(x, col) => x :: col)
                  (combine row (Np2.T (r2 :: m)))).
      split.
      * rewrite length_map, length_combine. lia.
      * apply Forall_map, Forall_forall. intros [x col] Hin.
        apply in_combine_r in Hin. rewrite Forall_forall in Hf.
        simpl. now rewrite (Hf col Hin).
Qed.

Lemma T_at (R C : nat) m i j d :
  (1 <= R)%nat -> Np2.rect R C m -> (i < C)%nat -> (j < R)%nat ->
  Np2.at_ (Np2.T m) i j d = Np2.at_ m j i d.
Proof.
  unfold Np2.at_.
  revert R j. induction m as [|row m IH]; intros R j HR Hm Hi Hj.
  - destruct Hm as [Hl _]. simpl in Hl. lia.
  - destruct R as [|R]; [lia|].
    apply rect_tail in Hm as (Hrow & Hm).
    destruct m as [|r2 m].
    + destruct Hm as [<- _]. cbn [Np2.T]. simpl in Hj.
      assert (j = 0%nat) by lia. subst j.
      rewrite (nth_indep _ [] [d]) by (rewrite length_map; lia).
      now rewrite (map_nth (fun x => [x])).
    + assert (HR' : (1 <= R)%nat) by (destruct Hm as [<- _]; simpl; lia).
      pose proof (T_rect R C _ HR' Hm) as [Hl _].
      set (F := fun p : A * list A => let '(x, col) := p in x :: col).
      change (Np2.T (row :: r2 :: m))
        with (map F (combine row (Np2.T (r2 :: m)))).
      rewrite (nth_indep _ [] (F (d, [])))
        by (rewrite length_map, length_combine; lia).
      rewrite (map_nth F), combine_nth by lia.
      destruct j as [|j]; [reflexivity|].
      unfold F. cbn [nth].
      apply (IH R); [assumption | assumption | assumption | lia].
Qed.
End ArrayFacts.

Lemma map_map_rect {A B} (f : A -> B) (R C : nat) (m : list (list A)) :
  Np2.rect R C m -> Np2.rect R C (map (map f) m).
Proof.
  intros [Hl Hf]. split; [now rewrite length_map|].
  apply Forall_map. eapply Forall_impl; [|exact Hf].
  intros row Hrow. now rewrite length_map.
Qed.

Lemma map_map_at {A B} (f : A -> B) (m : list (list A)) i j d :
  Np2.at_ (map (map f) m) i j (f d) = f (Np2.at_ m i j d).
Proof.
  unfold Np2.at_.
  change (@nil B) with (map f []). now rewrite !map_nth.
Qed.

Lemma add_rect (R C : nat) (a b : list (list Q)) :
  Np2.rect R C a -> Np2.rect R C b -> Np2.rect R C (Np2.add a b).
Proof.
  intros [Ha Hfa] [Hb Hfb]. unfold Np2.add. split.
  - rewrite length_map, length_combine. lia.
  - apply Forall_map, Forall_forall. intros [ra rb] Hin.
    rewrite Forall_forall in Hfa, Hfb.
    rewrite length_map, length_combine.
    rewrite (Hfa ra (in_combine_l _ _ _ _ Hin)).
    rewrite (Hfb rb (in_combine_r _ _ _ _ Hin)). lia.
Qed.

Lemma add_at (R C : nat) (a b : list (list Q)) i j :
  Np2.rect R C a -> Np2.rect R C b -> (i < R)%nat -> (j < C)%nat ->
  Np2.at_ (Np2.add a b) i j 0 = Np2.at_ a i j 0 + Np2.at_ b i j 0.
Proof.
  intros [Ha Hfa] [Hb Hfb] Hi Hj. unfold Np2.at_, Np2.add.
  set (G := fun p : Q * Q => let '(x, y) := p in x + y).
  set (F := fun p : list Q * list Q =>
              let '(ra, rb) := p in map G (combine ra rb)).
  rewrite (nth_indep _ [] (F ([], [])))
    by (rewrite length_map, length_combine; lia).
  rewrite (map_nth F), combine_nth by lia. unfold F.
  assert (Hra : length (nth i a []) = C).
  { rewrite Forall_forall in Hfa. apply Hfa, nth_In. lia. }
  assert (Hrb : length (nth i b []) = C).
  { rewrite Forall_forall in Hfb. apply Hfb, nth_In. lia. }
  rewrite (nth_indep _ 0 (G (0, 0)))
    by (rewrite length_map, length_combine; lia).
  rewrite (map_nth G), combine_nth by lia.
  reflexivity.
Qed.

Lemma iadd_ok (R C : nat) (a b : list (list Q)) :
  Np2.rect R C a -> Np2.rect R C b -> Np2.iadd a b = Ok (Np2.add a b).
Proof.
  intros Ha Hb. unfold Np2.iadd, Np2.same_shape.
  rewrite (shape_rect R C a Ha), (shape_rect R C b Hb).
  destruct (list_eq_dec Nat.eq_dec (repeat C R) (repeat C R)); congruence.
Qed.

Lemma py_index_nat {A} (l : list A) (k : nat) (a : A) :
  nth_error l k = Some a -> py_index l (Z.of_nat k) = Ok a.
Proof.
  intros H. unfold py_index.
  assert (Hk : (k < length l)%nat) by (apply nth_error_Some; congruence).
  destruct (Z.ltb_spec (Z.of_nat k) 0); [lia|].
  destruct (Z.leb_spec 0 (Z.of_nat k)); [|lia].
  destruct (Z.ltb_spec (Z.of_nat k) (Z.of_nat (length l))); [|lia].
  simpl. now rewrite Nat2Z.id, H.
Qed.

(** The indices [range(len(pre), len(pre) + len(l))] select [l] in
    [pre + l]. *)
Lemma py_index_range {A} (pre l : list A) :
  Forall2 (fun m a => py_index (pre ++ l) m = Ok a)
          (map (fun k => Z.of_nat (length pre + k)) (seq 0 (length l))) l.
Proof.
  revert pre. induction l as [|a l IH]; intros pre; [constructor|].
  cbn [length seq map]. constructor.
  - apply py_index_nat. rewrite nth_error_app2 by lia.
    now replace (length pre + 0 - length pre)%nat with 0%nat by lia.
  - rewrite <- seq_shift, map_map.
    specialize (IH (pre ++ [a])). rewrite <- app_assoc in IH. simpl in IH.
    erewrite map_ext; [exact IH|].
    intros k. rewrite length_app. simpl. f_equal. lia.
Qed.

Lemma py_range_tail {A} (a : A) (l : list A) :
  Forall2 (fun m x => py_index (a :: l) m = Ok x)
          (py_range 1 (Z.of_nat (length (a :: l)))) l.
Proof.
  unfold py_range.
  replace (Z.to_nat (Z.of_nat (length (a :: l)) - 1)) with (length l)
    by (cbn [length]; lia).
  erewrite map_ext; [exact (py_index_range [a] l)|].
  intros k. cbn [length]. lia.
Qed.

Section Modes.
Variables (R C : nat) (gathered_grids : list grid).
Hypothesis HR : (1 <= R)%nat.

Lemma Er_T_real_rect g :
  Np2.rect R C (Er g) -> Np2.rect C R (FieldSlice.Er_T_real g).
Proof.
  intros Hg. unfold FieldSlice.Er_T_real. apply map_map_rect, T_rect; assumption.
Qed.

Lemma Er_T_real_at g i j :
  Np2.rect R C (Er g) -> (i < C)%nat -> (j < R)%nat ->
  Np2.at_ (FieldSlice.Er_T_real g) i j 0 = FieldSlice.Er_real g j i.
Proof.
  intros Hg Hi Hj. unfold FieldSlice.Er_T_real, Np2.real_part, FieldSlice.Er_real.
  change 0 with (real (Complex 0 0)) at 1.
  rewrite map_map_at. f_equal. now apply (T_at R C).
Qed.

(** The loop over the modes from 1 on adds twice the real part of each. *)
Lemma fold_add_mode (ms : list Z) (modes : list grid) :
  Forall2 (fun m g => py_index gathered_grids m = Ok g) ms modes ->
  Forall (fun g => Np2.rect R C (Er g)) modes ->
  forall acc, Np2.rect C R acc ->
  exists E,
    fold_left (FieldSlice.add_mode gathered_grids) ms (Ok acc) = Ok E /\
    Np2.rect C R E /\
    forall i j, (i < C)%nat -> (j < R)%nat ->
      Np2.at_ E i j 0
      == Np2.at_ acc i j 0 + 2 * FieldSlice.mode_sum modes j i.
Proof.
  induction 1 as [|m g ms modes Hm _ IH]; intros Hmodes acc Hacc.
  - exists acc. split; [reflexivity|]. split; [assumption|].
    intros i j _ _. simpl. ring.
  - inversion Hmodes as [|? ? Hg Hrest]; subst.
    pose proof (Er_T_real_rect g Hg) as Ht.
    assert (Hs : Np2.rect C R (Np2.scale 2 (FieldSlice.Er_T_real g)))
      by now apply map_map_rect.
    cbn [fold_left]. unfold FieldSlice.add_mode at 2. cbn [rbind].
    rewrite Hm. cbn [rbind].
    rewrite (iadd_ok C R) by assumption.
    destruct (IH Hrest _ (add_rect C R _ _ Hacc Hs)) as (E & HE & HrE & Hat).
    exists E. split; [assumption|]. split; [assumption|].
    intros i j Hi Hj. rewrite (Hat i j Hi Hj).
    rewrite (add_at C R) by assumption.
    unfold Np2.scale.
    change 0 with (Qmult 2 0) at 2.
    rewrite map_map_at, Er_T_real_at by assumption.
    simpl. ring.
Qed.
End Modes.

(** C7: for gathered grids of one shape the slice is, cell by cell, the real
    part of mode 0 plus 2 times the sum of the real parts of all the modes
    from 1 on (transposed with respect to the grids); the imaginary parts
    play no role.  With real parts [1, 1] in mode 0 and [2, 2] in mode 1 the
    slice is [5, 5], and this is the array [lwfa_script.py] plots. *)
Theorem C7_field_slice :
  (forall (g0 : grid) (rest : list grid) (R C : nat),
     (1 <= R)%nat ->
     Forall (fun g => Np2.rect R C (Er g)) (g0 :: rest) ->
     exists E,
       FieldSlice.combine_modes (g0 :: rest)
                                (Z.of_nat (length (g0 :: rest))) = Ok E /\
       Np2.rect C R E /\
       forall i j, (i < C)%nat -> (j < R)%nat ->
         Np2.at_ E i j 0
         == FieldSlice.Er_real g0 j i + 2 * FieldSlice.mode_sum rest j i) /\
  FieldSlice.combine_modes
    [Grid [[Complex 1 3]; [Complex 1 0]];
     Grid [[Complex 2 (-4)]; [Complex 2 7]]] 2 = Ok [[5; 5]] /\
  nth_error (trace (Lwfa.run Lwfa.defaults sample_fld)) 8
  = Some (Plot2D [[5; 5]]).
Proof.
  split; [|split; reflexivity].
  intros g0 rest R C HR Hall.
  inversion Hall as [|? ? Hg0 Hrest]; subst.
  unfold FieldSlice.combine_modes.
  assert (E0 : py_index (g0 :: rest) 0%Z = Ok g0)
    by exact (py_index_nat (g0 :: rest) 0 g0 eq_refl).
  rewrite E0. cbn [rbind].
  destruct (fold_add_mode R C (g0 :: rest) HR _ rest
              (py_range_tail g0 rest) Hrest _
              (Er_T_real_rect R C HR g0 Hg0))
    as (E & HE & HrE & Hat).
  exists E. split; [exact HE|]. split; [exact HrE|].
  intros i j Hi Hj. rewrite (Hat i j Hi Hj).
  now rewrite (Er_T_real_at R C HR g0 i j Hg0 Hi Hj).
Qed.

Lemma C7_field_slice_witness :
  exists E,
    FieldSlice.combine_modes [sample_fld 0; sample_fld 1] 2 = Ok E /\
    Np2.rect 1 2 E /\
    forall i j, (i < 1)%nat -> (j < 2)%nat ->
      Np2.at_ E i j 0
      == FieldSlice.Er_real (sample_fld 0) j i
         + 2 * FieldSlice.mode_sum [sample_fld 1] j i.
Proof.
  destruct C7_field_slice as (H & _).
  apply (H (sample_fld 0) [sample_fld 1] 2%nat 1%nat).
  - lia.
  - repeat constructor.
Defined.

(** * Further properties of the scripts *)

(** ** The runs, call by call *)

Lemma gather_run (fld : Z -> grid) (ms : list Z) :
  for_each (fun m => bind (emit (gather_grid m)) (fun _ => ret (fld m))) ms
  = (map gather_grid ms, Ok (map fld ms)).
Proof.
  induction ms as [|m ms IH]; [reflexivity|].
  cbn [for_each]. rewrite IH. cbn. now rewrite app_nil_r.
Qed.

Lemma restart_or_track_run (r t : pyobj) :
  (if is_False r then if truthy t then emit track else ret tt
   else emit restart_from_checkpoint)
  = (restart_or_track r t, Ok tt).
Proof.
  unfold restart_or_track. destruct (is_False r), (truthy t); reflexivity.
Qed.

Lemma checkpoint_run (s : pyobj) (p : Z) :
  (if truthy s then emit (set_periodic_checkpoint p) else ret tt)
  = (checkpoint_calls s p, Ok tt).
Proof.
  unfold checkpoint_calls. destruct (truthy s); reflexivity.
Qed.

(** What [main] of [lwfa_script.py] does, by the outcome of the step count
    and of the field combination. *)
Lemma lwfa_main_run cfg d T fld :
  Lwfa.main cfg d T fld
  = match Lwfa.N_step T d with
    | Raise e => (lwfa_setup cfg d, Raise e)
    | Ok n =>
        match FieldSlice.combine_modes (lwfa_gathered cfg fld) (Lwfa.Nm cfg) with
        | Raise e =>
            (lwfa_setup cfg d ++ map gather_grid (py_range 0 (Lwfa.Nm cfg)),
             Raise e)
        | Ok E =>
            (lwfa_setup cfg d ++ map gather_grid (py_range 0 (Lwfa.Nm cfg))
               ++ [Plot2D E; step n], Ok tt)
        end
    end.
Proof.
  unfold Lwfa.main, new_Simulation, lwfa_setup, lwfa_gathered.
  rewrite (py_div_ok _ _ c_nonzero), restart_or_track_run, checkpoint_run,
    gather_run.
  cbn -[Lwfa.N_step FieldSlice.combine_modes py_range].
  destruct (Lwfa.N_step T d) as [n|e]; [|now rewrite !app_nil_r].
  destruct (FieldSlice.combine_modes _ _) as [E|e];
    rewrite <- ?app_assoc, ?app_nil_r; reflexivity.
Qed.

Lemma calder_main_run cfg d :
  Calder.main cfg d = (calder_setup cfg d ++ [step (Calder.N_step cfg)], Ok tt).
Proof.
  unfold Calder.main, new_Simulation, calder_setup.
  rewrite restart_or_track_run, checkpoint_run.
  cbn. rewrite <- ?app_assoc, ?app_nil_r. reflexivity.
Qed.

Lemma lwfa_dt_zero cfg :
  Lwfa.Nz cfg = 0%Z -> Lwfa.dt cfg = Raise ZeroDivisionError.
Proof. intros H. unfold Lwfa.dt. rewrite H. reflexivity. Qed.

Lemma calder_dt_zero cfg :
  Calder.Nz cfg = 0%Z -> Calder.dt cfg = Raise ZeroDivisionError.
Proof. intros H. unfold Calder.dt. rewrite H. reflexivity. Qed.

Lemma py_div_zero (x y : Q) : y == 0 -> py_div x y = Raise ZeroDivisionError.
Proof.
  intros Hy. unfold py_div. case_Qeqb y 0; [reflexivity|contradiction].
Qed.

Lemma lwfa_run_ok cfg fld d T :
  Lwfa.dt cfg = Ok d -> Lwfa.T_interact cfg = Ok T ->
  Lwfa.run cfg fld = Lwfa.main cfg d T fld.
Proof.
  intros Hd HT. unfold Lwfa.run. rewrite Hd, HT. cbn -[Lwfa.main].
  now destruct (Lwfa.main cfg d T fld).
Qed.

Lemma calder_run_ok cfg d :
  Calder.dt cfg = Ok d -> Calder.run cfg = Calder.main cfg d.
Proof.
  intros Hd. unfold Calder.run. rewrite Hd. cbn -[Calder.main].
  now destruct (Calder.main cfg d).
Qed.

(** The timestep vanishes exactly for a box of no length. *)
Lemma py_div_raise (x y : Q) e : py_div x y = Raise e -> e = ZeroDivisionError.
Proof.
  unfold py_div. destruct (Qeq_bool y 0); [|discriminate].
  intros E. now injection E as <-.
Qed.

Lemma N_step_raise (T d : Q) e :
  Lwfa.N_step T d = Raise e -> e = ZeroDivisionError.
Proof.
  unfold Lwfa.N_step, rbind.
  destruct (py_div T d) eqn:E; [discriminate|].
  intros E'. injection E' as <-. eapply py_div_raise, E.
Qed.

(** The shapes a trace of [lwfa_script.py] can take. *)
Lemma lwfa_run_shape cfg fld :
  Lwfa.run cfg fld = ([], Raise ZeroDivisionError) \/
  exists d,
    Lwfa.dt cfg = Ok d /\
    (Lwfa.run cfg fld = (lwfa_setup cfg d, Raise ZeroDivisionError) \/
     (exists e,
        Lwfa.run cfg fld
        = (lwfa_setup cfg d ++ map gather_grid (py_range 0 (Lwfa.Nm cfg)),
           Raise e)) \/
     (exists E n,
        Lwfa.run cfg fld
        = (lwfa_setup cfg d ++ map gather_grid (py_range 0 (Lwfa.Nm cfg))
             ++ [Plot2D E; step n], Ok tt))).
Proof.
  destruct (Z.eq_dec (Lwfa.Nz cfg) 0) as [HN|HN].
  { left. unfold Lwfa.run. now rewrite (lwfa_dt_zero cfg HN). }
  pose proof (lwfa_dt_ok cfg HN) as Hd.
  destruct (Lwfa.T_interact cfg) as [T|e] eqn:HT.
  - right. eexists. split; [exact Hd|].
    rewrite (lwfa_run_ok cfg fld _ T Hd HT), lwfa_main_run.
    destruct (Lwfa.N_step T _) as [n|e] eqn:EN.
    + right. destruct (FieldSlice.combine_modes _ _) as [E|e].
      * right. now exists E, n.
      * left. now exists e.
    + left. now rewrite (N_step_raise _ _ _ EN).
  - left. unfold Lwfa.run. rewrite Hd, HT. cbn.
    now rewrite (py_div_raise _ _ _ HT).
Qed.

Lemma restart_or_track_no_step r t : existsb is_step (restart_or_track r t) = false.
Proof.
  unfold restart_or_track. destruct (is_False r), (truthy t); reflexivity.
Qed.

Lemma checkpoint_calls_no_step s p : existsb is_step (checkpoint_calls s p) = false.
Proof. unfold checkpoint_calls. destruct (truthy s); reflexivity. Qed.

Lemma calder_setup_no_step cfg d : existsb is_step (calder_setup cfg d) = false.
Proof.
  unfold calder_setup. cbn [app existsb is_step orb].
  rewrite existsb_app, restart_or_track_no_step. cbn [existsb is_step orb app].
  apply checkpoint_calls_no_step.
Qed.

Lemma existsb_false_In {A} (f : A -> bool) (l : list A) (x : A) :
  existsb f l = false -> In x l -> f x = false.
Proof.
  induction l as [|a l IH]; [intros _ []|].
  cbn [existsb]. intros H [<-|Hin]; apply orb_false_elim in H as [Ha Hl];
    [exact Ha | now apply IH].
Qed.

Lemma py_range_empty (a b : Z) : (b <= a)%Z -> py_range a b = [].
Proof.
  intros H. unfold py_range.
  now replace (Z.to_nat (b - a)) with 0%nat by lia.
Qed.

Lemma py_range_In (a b m : Z) : In m (py_range a b) -> (a <= m < b)%Z.
Proof.
  unfold py_range. intros H. apply in_map_iff in H as (k & <- & Hk).
  apply in_seq in Hk. lia.
Qed.

(** ** Failures before the first call *)

(** X1: with [Nz = 0] [calder_experiment.py] raises [ZeroDivisionError] in
    the timestep, before any call is issued; and every [step] call of a
    run is [step(N_step)] with the step count of the configuration, which
    does not depend on the timestep or the box. *)
Theorem X1_calder_zero_cells_and_step_count (cfg : Calder.config) :
  (Calder.Nz cfg = 0%Z -> Calder.run cfg = ([], Raise ZeroDivisionError)) /\
  (forall n, In (step n) (trace (Calder.run cfg)) -> n = Calder.N_step cfg).
Proof.
  split.
  - intros HN. unfold Calder.run. now rewrite (calder_dt_zero cfg HN).
  - intros n H. destruct (Z.eq_dec (Calder.Nz cfg) 0) as [HN|HN].
    + unfold Calder.run in H. rewrite (calder_dt_zero cfg HN) in H.
      destruct H.
    + rewrite (calder_run_ok cfg _ (calder_dt_ok cfg HN)), calder_main_run in H.
      cbn [trace fst] in H. apply in_app_or in H as [H|[H|[]]].
      * apply (existsb_false_In _ _ _ (calder_setup_no_step cfg _)) in H.
        discriminate H.
      * now injection H as <-.
Qed.

Lemma X1_calder_zero_cells_and_step_count_witness :
  Calder.run (calder_no_cells Calder.defaults) = ([], Raise ZeroDivisionError)
  /\ (forall n, In (step n) (trace (Calder.run Calder.defaults)) ->
                n = 130400%Z).
Proof.
  split.
  - apply (X1_calder_zero_cells_and_step_count
             (calder_no_cells Calder.defaults)). reflexivity.
  - apply (X1_calder_zero_cells_and_step_count Calder.defaults).
Defined.

(** X3: when a module-level division of [lwfa_script.py] fails ([Nz = 0] in
    the timestep, or [v_window = 0] in the interaction time), the script
    raises [ZeroDivisionError] and no call at all has been issued. *)
Theorem X3_lwfa_module_level_failure (cfg : Lwfa.config) (fld : Z -> grid) :
  Lwfa.Nz cfg = 0%Z \/ Lwfa.v_window cfg == 0 ->
  Lwfa.run cfg fld = ([], Raise ZeroDivisionError).
Proof.
  intros [HN|Hv].
  - unfold Lwfa.run. now rewrite (lwfa_dt_zero cfg HN).
  - unfold Lwfa.run.
    destruct (Lwfa.dt cfg) as [d|e] eqn:Hd.
    + unfold Lwfa.T_interact. rewrite (py_div_zero _ _ Hv). reflexivity.
    + cbn. unfold Lwfa.dt, rbind in Hd.
      destruct (py_div _ (inject_Z _)) as [q|e'] eqn:E1.
      * now rewrite (py_div_raise _ _ _ Hd).
      * injection Hd as <-. now rewrite (py_div_raise _ _ _ E1).
Qed.

Lemma X3_lwfa_module_level_failure_witness :
  Lwfa.run (lwfa_variant 0 30e-6 2) sample_fld = ([], Raise ZeroDivisionError).
Proof.
  apply X3_lwfa_module_level_failure. right. reflexivity.
Defined.

(** ** The order of the calls *)

Section SortedFacts.
Context {A : Type} (R : A -> A -> Prop).

Lemma StronglySorted_app (l1 l2 : list A) :
  StronglySorted R l1 -> StronglySorted R l2 ->
  (forall x y, In x l1 -> In y l2 -> R x y) ->
  StronglySorted R (l1 ++ l2).
Proof.
  induction l1 as [|a l1 IH]; intros H1 H2 Hx; [exact H2|].
  inversion H1 as [|? ? Hs Hf]; subst. cbn [app]. constructor.
  - apply IH; [assumption | assumption |].
    intros x y Hin. apply Hx. now right.
  - apply Forall_app. split; [assumption|].
    apply Forall_forall. intros y Hy. apply Hx; [now left | assumption].
Qed.

Lemma StronglySorted_map {B} (R' : B -> B -> Prop) (f : A -> B) (l : list A) :
  (forall x y, R x y -> R' (f x) (f y)) ->
  StronglySorted R l -> StronglySorted R' (map f l).
Proof.
  intros Hf. induction 1 as [|a l _ IH Hall]; cbn [map]; constructor.
  - exact IH.
  - apply Forall_map. eapply Forall_impl; [|exact Hall].
    intros y. apply Hf.
Qed.
End SortedFacts.

Lemma py_range_sorted (a b : Z) : StronglySorted Z.lt (py_range a b).
Proof.
  unfold py_range. generalize (Z.to_nat (b - a)) as n. generalize 0%nat as s.
  intros s n. revert s.
  induction n as [|n IH]; intros s; cbn [seq map]; constructor.
  - apply IH.
  - apply Forall_map, Forall_forall. intros k Hk. apply in_seq in Hk. lia.
Qed.

Lemma gather_sorted (ms : list Z) :
  StronglySorted Z.lt ms -> StronglySorted precedes (map gather_grid ms).
Proof.
  apply StronglySorted_map. intros m m' H. right. now exists m, m'.
Qed.

(** Sortedness and bounds of a list of calls that is written out. *)
Ltac sorted_calls :=
  lazymatch goal with
  | |- StronglySorted _ [] => constructor
  | |- StronglySorted _ (_ :: _) => constructor; [sorted_calls | sorted_calls]
  | |- Forall _ [] => constructor
  | |- Forall _ (_ :: _) =>
      constructor;
      [first [left; cbn [phase]; lia | cbn [phase]; lia] | sorted_calls]
  end.

Lemma lwfa_setup_sorted cfg d :
  StronglySorted precedes (lwfa_setup cfg d) /\
  Forall (fun ev => (phase ev <= 6)%nat) (lwfa_setup cfg d).
Proof.
  unfold lwfa_setup, restart_or_track, checkpoint_calls.
  destruct (is_False _), (truthy (Lwfa.track_electrons cfg)),
    (truthy (Lwfa.save_checkpoints cfg)); cbn [app]; split; sorted_calls.
Qed.

Lemma calder_setup_sorted cfg d :
  StronglySorted precedes (calder_setup cfg d) /\
  Forall (fun ev => (phase ev <= 6)%nat) (calder_setup cfg d).
Proof.
  unfold calder_setup, restart_or_track, checkpoint_calls.
  destruct (is_False _), (truthy (Calder.track_electrons cfg)),
    (truthy (Calder.save_checkpoints cfg)); cbn [app]; split; sorted_calls.
Qed.

Lemma lwfa_calls_sorted cfg d (E : list (list Q)) (n : Z) :
  StronglySorted precedes
    (lwfa_setup cfg d ++ map gather_grid (py_range 0 (Lwfa.Nm cfg))
       ++ [Plot2D E; step n]).
Proof.
  destruct (lwfa_setup_sorted cfg d) as [Hs Hb].
  rewrite Forall_forall in Hb.
  apply StronglySorted_app; [exact Hs | |].
  - apply StronglySorted_app;
      [apply gather_sorted, py_range_sorted | sorted_calls |].
    intros x y Hx Hy. apply in_map_iff in Hx as (m & <- & _).
    destruct Hy as [<-|[<-|[]]]; left; cbn [phase]; lia.
  - intros x y Hx Hy. specialize (Hb x Hx). left.
    apply in_app_or in Hy as [Hy|[<-|[<-|[]]]]; cbn [phase]; try lia.
    apply in_map_iff in Hy as (m & <- & _). cbn [phase]. lia.
Qed.

Lemma StronglySorted_prefix {A} (R : A -> A -> Prop) (l1 l2 : list A) :
  StronglySorted R (l1 ++ l2) -> StronglySorted R l1.
Proof.
  induction l1 as [|a l1 IH]; [constructor|].
  cbn [app]. intros H. inversion H as [|? ? Hs Hf]; subst. constructor.
  - now apply IH.
  - apply Forall_app in Hf. tauto.
Qed.

(** X8: in every run of either script, whatever its outcome, the calls come
    in the order of the stages: simulation, laser, species, tracking or
    restart, moving window, diagnostics, checkpoint policy, gathered grids
    by increasing mode, plot, step.  Every call belongs to a later stage
    than all calls before it (or gathers a higher mode), so no stage is
    entered twice and nothing follows [step]. *)
Theorem X8_calls_in_stage_order :
  (forall (cfg : Lwfa.config) (fld : Z -> grid),
     StronglySorted precedes (trace (Lwfa.run cfg fld))) /\
  (forall cfg : Calder.config,
     StronglySorted precedes (trace (Calder.run cfg))).
Proof.
  split.
  - intros cfg fld.
    destruct (lwfa_run_shape cfg fld)
      as [->|(d & _ & [->|[(e & ->)|(E & n & ->)]])]; cbn [trace fst].
    + constructor.
    + apply lwfa_setup_sorted.
    + pose proof (lwfa_calls_sorted cfg d [] 0) as H.
      rewrite app_assoc in H. apply StronglySorted_prefix in H. exact H.
    + apply lwfa_calls_sorted.
  - intros cfg. destruct (Z.eq_dec (Calder.Nz cfg) 0) as [HN|HN].
    + unfold Calder.run. rewrite (calder_dt_zero cfg HN). constructor.
    + rewrite (calder_run_ok cfg _ (calder_dt_ok cfg HN)), calder_main_run.
      cbn [trace fst].
      destruct (calder_setup_sorted cfg
                  ((Calder.zmax cfg - Calder.zmin cfg)
                   / inject_Z (Calder.Nz cfg) / c)) as [Hs Hb].
      rewrite Forall_forall in Hb.
      apply StronglySorted_app; [exact Hs | sorted_calls |].
      intros x y Hx [<-|[]]. specialize (Hb x Hx). left. cbn [phase]. lia.
Qed.

(** ** Checkpoints, restart and gathered grids *)

Lemma lwfa_trace_setup cfg fld :
  Lwfa.Nz cfg <> 0%Z -> ~ Lwfa.v_window cfg == 0 ->
  exists d tail, trace (Lwfa.run cfg fld) = lwfa_setup cfg d ++ tail.
Proof.
  intros HN Hv.
  rewrite (lwfa_run_ok cfg fld _ _ (lwfa_dt_ok cfg HN) (py_div_ok _ _ Hv)).
  rewrite lwfa_main_run. eexists.
  destruct (Lwfa.N_step _ _) as [n|e].
  - destruct (FieldSlice.combine_modes _ _) as [E|e];
      eexists; cbn [trace fst]; reflexivity.
  - exists []. cbn [trace fst]. now rewrite app_nil_r.
Qed.

Lemma lwfa_trace_In cfg fld ev :
  In ev (trace (Lwfa.run cfg fld)) ->
  (exists d, In ev (lwfa_setup cfg d)) \/ (7 <= phase ev)%nat.
Proof.
  destruct (lwfa_run_shape cfg fld)
    as [->|(d & _ & [->|[(e & ->)|(E & n & ->)]])]; cbn [trace fst]; intros H.
  - destruct H.
  - left. now exists d.
  - apply in_app_or in H as [H|H]; [left; now exists d|right].
    apply in_map_iff in H as (m & <- & _). cbn [phase]. lia.
  - apply in_app_or in H as [H|H]; [left; now exists d|right].
    apply in_app_or in H as [H|[<-|[<-|[]]]]; cbn [phase]; try lia.
    apply in_map_iff in H as (m & <- & _). cbn [phase]. lia.
Qed.

Lemma calder_trace_In cfg ev :
  In ev (trace (Calder.run cfg)) ->
  (exists d, In ev (calder_setup cfg d)) \/ (7 <= phase ev)%nat.
Proof.
  destruct (Z.eq_dec (Calder.Nz cfg) 0) as [HN|HN].
  - unfold Calder.run. rewrite (calder_dt_zero cfg HN). intros [].
  - rewrite (calder_run_ok cfg _ (calder_dt_ok cfg HN)), calder_main_run.
    cbn [trace fst]. intros H.
    apply in_app_or in H as [H|[<-|[]]]; [left; eauto | right].
    cbn [phase]. lia.
Qed.

(** Membership in a list of calls that is written out. *)
Ltac in_calls H :=
  cbn [app In] in H;
  repeat match type of H with
         | _ \/ _ => destruct H as [H|H]
         | False => destruct H
         end.

Lemma lwfa_setup_checkpoint cfg d p :
  In (set_periodic_checkpoint p) (lwfa_setup cfg d) ->
  truthy (Lwfa.save_checkpoints cfg) = true /\ p = Lwfa.checkpoint_period cfg.
Proof.
  unfold lwfa_setup, restart_or_track, checkpoint_calls. intros H.
  destruct (is_False _), (truthy (Lwfa.track_electrons cfg)),
    (truthy (Lwfa.save_checkpoints cfg));
    in_calls H; try discriminate H; injection H as <-; now split.
Qed.

Lemma calder_setup_checkpoint cfg d p :
  In (set_periodic_checkpoint p) (calder_setup cfg d) ->
  truthy (Calder.save_checkpoints cfg) = true
  /\ p = Calder.checkpoint_period cfg.
Proof.
  unfold calder_setup, restart_or_track, checkpoint_calls. intros H.
  destruct (is_False _), (truthy (Calder.track_electrons cfg)),
    (truthy (Calder.save_checkpoints cfg));
    in_calls H; try discriminate H; injection H as <-; now split.
Qed.

(** X6: a [set_periodic_checkpoint] call is issued only when
    [save_checkpoints] is true, and only with [checkpoint_period]; when
    [save_checkpoints] is true and the module-level divisions succeed, it is
    issued, before any [step]. *)
Theorem X6_checkpoint_policy :
  (forall (cfg : Lwfa.config) (fld : Z -> grid) (p : Z),
     In (set_periodic_checkpoint p) (trace (Lwfa.run cfg fld)) ->
     truthy (Lwfa.save_checkpoints cfg) = true
     /\ p = Lwfa.checkpoint_period cfg) /\
  (forall (cfg : Lwfa.config) (fld : Z -> grid),
     truthy (Lwfa.save_checkpoints cfg) = true ->
     Lwfa.Nz cfg <> 0%Z -> ~ Lwfa.v_window cfg == 0 ->
     issued_before_stepping
       (set_periodic_checkpoint (Lwfa.checkpoint_period cfg))
       (trace (Lwfa.run cfg fld))) /\
  (forall (cfg : Calder.config) (p : Z),
     In (set_periodic_checkpoint p) (trace (Calder.run cfg)) ->
     truthy (Calder.save_checkpoints cfg) = true
     /\ p = Calder.checkpoint_period cfg) /\
  (forall cfg : Calder.config,
     truthy (Calder.save_checkpoints cfg) = true ->
     Calder.Nz cfg <> 0%Z ->
     issued_before_stepping
       (set_periodic_checkpoint (Calder.checkpoint_period cfg))
       (trace (Calder.run cfg))).
Proof.
  split; [|split; [|split]].
  - intros cfg fld p H. apply lwfa_trace_In in H as [(d & H)|H].
    + now apply lwfa_setup_checkpoint in H.
    + cbn [phase] in H. lia.
  - intros cfg fld Hs HN Hv.
    destruct (lwfa_trace_setup cfg fld HN Hv) as (d & tail & ->).
    exists ([Simulation (Lwfa.Nz cfg) (Lwfa.zmax cfg) (Lwfa.Nr cfg)
                        (Lwfa.rmax cfg) (Lwfa.Nm cfg) d None (Lwfa.zmin cfg);
             add_laser_pulse (Lwfa.a0 cfg) (Lwfa.w0 cfg) (Lwfa.ctau cfg / c)
                             (Lwfa.z0 cfg) (Lwfa.lambda0 cfg);
             add_new_species
               (Plasma (Lwfa.p_zmin cfg) (Lwfa.p_zmax cfg) None
                       (Lwfa.p_rmax cfg) (Lwfa.p_nz cfg) (Lwfa.p_nr cfg)
                       (Lwfa.p_nt cfg) (Lwfa.n_e cfg) (Lwfa.dens_func cfg))]
              ++ restart_or_track (Lwfa.use_restart cfg)
                                  (Lwfa.track_electrons cfg)
              ++ [set_moving_window (Lwfa.v_window cfg);
                  set_diags (Lwfa.diag_period cfg) (Lwfa.diag_period cfg)]).
    exists tail. split.
    + unfold lwfa_setup, checkpoint_calls. rewrite Hs.
      rewrite <- !app_assoc. reflexivity.
    + unfold restart_or_track.
      destruct (is_False _), (truthy (Lwfa.track_electrons cfg)); reflexivity.
  - intros cfg p H. apply calder_trace_In in H as [(d & H)|H].
    + now apply calder_setup_checkpoint in H.
    + cbn [phase] in H. lia.
  - intros cfg Hs HN.
    rewrite (calder_run_ok cfg _ (calder_dt_ok cfg HN)), calder_main_run.
    cbn [trace fst].
    exists (firstn 2 (calder_setup cfg
                        ((Calder.zmax cfg - Calder.zmin cfg)
                         / inject_Z (Calder.Nz cfg) / c))
              ++ restart_or_track (Calder.use_restart cfg)
                                  (Calder.track_electrons cfg)
              ++ [set_moving_window (Calder.v_window cfg);
                  set_diags (Calder.diag_period cfg) (Calder.diag_period cfg)]).
    exists [step (Calder.N_step cfg)]. split.
    + unfold calder_setup, checkpoint_calls. rewrite Hs.
      cbn [firstn app]. rewrite <- !app_assoc. reflexivity.
    + unfold calder_setup, restart_or_track. cbn [firstn app].
      destruct (is_False _), (truthy (Calder.track_electrons cfg)); reflexivity.
Qed.

Lemma X6_checkpoint_policy_witness :
  issued_before_stepping (set_periodic_checkpoint 25)
    (trace (Lwfa.run (lwfa_with_checkpoints Lwfa.defaults (PyBool true) 25)
                     sample_fld)) /\
  issued_before_stepping (set_periodic_checkpoint 25)
    (trace (Calder.run
              (calder_with_checkpoints Calder.defaults (PyBool true) 25))).
Proof.
  destruct X6_checkpoint_policy as (_ & HL & _ & HC).
  split.
  - apply (HL (lwfa_with_checkpoints Lwfa.defaults (PyBool true) 25));
      [reflexivity | vm_compute; congruence | vm_compute; congruence].
  - apply (HC (calder_with_checkpoints Calder.defaults (PyBool true) 25));
      [reflexivity | vm_compute; congruence].
Defined.

Lemma lwfa_setup_restart cfg d ev :
  In ev (lwfa_setup cfg d) -> is_restart ev = true ->
  is_False (Lwfa.use_restart cfg) = false.
Proof.
  unfold lwfa_setup, restart_or_track, checkpoint_calls. intros H Hr.
  destruct (is_False _); [|reflexivity]. exfalso.
  destruct (truthy (Lwfa.track_electrons cfg)),
    (truthy (Lwfa.save_checkpoints cfg));
    in_calls H; subst ev; discriminate Hr.
Qed.

Lemma calder_setup_restart cfg d ev :
  In ev (calder_setup cfg d) -> is_restart ev = true ->
  is_False (Calder.use_restart cfg) = false.
Proof.
  unfold calder_setup, restart_or_track, checkpoint_calls. intros H Hr.
  destruct (is_False _); [|reflexivity]. exfalso.
  destruct (truthy (Calder.track_electrons cfg)),
    (truthy (Calder.save_checkpoints cfg));
    in_calls H; subst ev; discriminate Hr.
Qed.

Lemma late_call_not_restart ev : (7 <= phase ev)%nat -> is_restart ev = false.
Proof. destruct ev; cbn [phase is_restart]; intros H; try reflexivity; lia. Qed.

Lemma lwfa_no_restart_on_fresh cfg fld :
  is_False (Lwfa.use_restart cfg) = true ->
  existsb is_restart (trace (Lwfa.run cfg fld)) = false.
Proof.
  intros Hf. apply existsb_false. intros ev H.
  apply lwfa_trace_In in H as [(d & H)|H];
    [|now apply late_call_not_restart].
  destruct (is_restart ev) eqn:E; [|reflexivity].
  rewrite (lwfa_setup_restart cfg d ev H E) in Hf. discriminate Hf.
Qed.

Lemma calder_no_restart_on_fresh cfg :
  is_False (Calder.use_restart cfg) = true ->
  existsb is_restart (trace (Calder.run cfg)) = false.
Proof.
  intros Hf. apply existsb_false. intros ev H.
  apply calder_trace_In in H as [(d & H)|H];
    [|now apply late_call_not_restart].
  destruct (is_restart ev) eqn:E; [|reflexivity].
  rewrite (calder_setup_restart cfg d ev H E) in Hf. discriminate Hf.
Qed.

(** X7: a fresh run ([use_restart] is [False]) never calls
    [restart_from_checkpoint]; and no run of either script both tracks the
    electrons and restarts from a checkpoint. *)
Theorem X7_restart_only_when_requested :
  (forall (cfg : Lwfa.config) (fld : Z -> grid),
     (is_False (Lwfa.use_restart cfg) = true ->
      existsb is_restart (trace (Lwfa.run cfg fld)) = false) /\
     (existsb is_track (trace (Lwfa.run cfg fld)) = false \/
      existsb is_restart (trace (Lwfa.run cfg fld)) = false)) /\
  (forall cfg : Calder.config,
     (is_False (Calder.use_restart cfg) = true ->
      existsb is_restart (trace (Calder.run cfg)) = false) /\
     (existsb is_track (trace (Calder.run cfg)) = false \/
      existsb is_restart (trace (Calder.run cfg)) = false)).
Proof.
  split.
  - intros cfg fld. split; [apply lwfa_no_restart_on_fresh|].
    destruct (is_False (Lwfa.use_restart cfg)) eqn:E.
    + right. now apply lwfa_no_restart_on_fresh.
    + left. now apply lwfa_no_track_on_restart.
  - intros cfg. split; [apply calder_no_restart_on_fresh|].
    destruct (is_False (Calder.use_restart cfg)) eqn:E.
    + right. now apply calder_no_restart_on_fresh.
    + left. now apply calder_no_track_on_restart.
Qed.

Lemma X7_restart_only_when_requested_witness :
  existsb is_restart (trace (Lwfa.run Lwfa.defaults sample_fld)) = false /\
  existsb is_restart (trace (Calder.run Calder.defaults)) = false.
Proof.
  destruct X7_restart_only_when_requested as (HL & HC).
  split.
  - now apply (HL Lwfa.defaults sample_fld).
  - now apply (HC Calder.defaults).
Defined.

Lemma filter_gather_setup cfg d : filter is_gather (lwfa_setup cfg d) = [].
Proof.
  unfold lwfa_setup, restart_or_track, checkpoint_calls.
  destruct (is_False _), (truthy (Lwfa.track_electrons cfg)),
    (truthy (Lwfa.save_checkpoints cfg)); reflexivity.
Qed.

Lemma filter_gather_gather ms :
  filter is_gather (map gather_grid ms) = map gather_grid ms.
Proof. induction ms as [|m ms IH]; [reflexivity|]. cbn. now rewrite IH. Qed.

(** X9: [lwfa_script.py] gathers no mode outside [0 .. Nm-1]; and once a
    plot call is issued, each of the modes [0 .. Nm-1] has been gathered
    exactly once, by increasing mode. *)
Theorem X9_lwfa_gathers_every_mode (cfg : Lwfa.config) (fld : Z -> grid) :
  (forall m, In (gather_grid m) (trace (Lwfa.run cfg fld)) ->
             (0 <= m < Lwfa.Nm cfg)%Z) /\
  ((exists E, In (Plot2D E) (trace (Lwfa.run cfg fld))) ->
   filter is_gather (trace (Lwfa.run cfg fld))
   = map gather_grid (py_range 0 (Lwfa.Nm cfg))).
Proof.
  assert (Hsetup : forall d ev, In ev (lwfa_setup cfg d) ->
                                (phase ev <= 6)%nat).
  { intros d ev. destruct (lwfa_setup_sorted cfg d) as [_ Hb].
    rewrite Forall_forall in Hb. apply Hb. }
  assert (Hgather : forall m, In (gather_grid m)
                                 (map gather_grid (py_range 0 (Lwfa.Nm cfg)))
                              -> (0 <= m < Lwfa.Nm cfg)%Z).
  { intros m H. apply in_map_iff in H as (k & E & Hk).
    injection E as <-. now apply py_range_In. }
  destruct (lwfa_run_shape cfg fld)
    as [->|(d & _ & [->|[(e & ->)|(E & n & ->)]])]; cbn [trace fst].
  - split; [intros m []|intros (E & [])].
  - split.
    + intros m H. apply Hsetup in H. cbn [phase] in H. lia.
    + intros (E & H). apply Hsetup in H. cbn [phase] in H. lia.
  - split.
    + intros m H. apply in_app_or in H as [H|H]; [|now apply Hgather].
      apply Hsetup in H. cbn [phase] in H. lia.
    + intros (E & H). apply in_app_or in H as [H|H].
      * apply Hsetup in H. cbn [phase] in H. lia.
      * apply in_map_iff in H as (k & Hk & _). discriminate Hk.
  - split.
    + intros m H. apply in_app_or in H as [H|H].
      * apply Hsetup in H. cbn [phase] in H. lia.
      * apply in_app_or in H as [H|[H|[H|[]]]];
          [now apply Hgather | discriminate H | discriminate H].
    + intros _. rewrite !filter_app, filter_gather_setup, filter_gather_gather.
      cbn [filter is_gather app]. now rewrite app_nil_r.
Qed.

Lemma X9_lwfa_gathers_every_mode_witness :
  (0 <= 1 < 2)%Z /\
  filter is_gather (trace (Lwfa.run Lwfa.defaults sample_fld))
  = [gather_grid 0; gather_grid 1].
Proof.
  destruct (X9_lwfa_gathers_every_mode Lwfa.defaults sample_fld) as (Hm & Hp).
  split.
  - apply (Hm 1%Z). apply (nth_error_In _ 7). reflexivity.
  - apply Hp. exists [[5; 5]]. apply (nth_error_In _ 8). reflexivity.
Defined.

(** ** The step count on the edge

    [int] of the binary64 quotient, for the quotients that are not positive
    numbers. *)

(** X10: [int(T_interact / dt)] raises [ZeroDivisionError] for a timestep of
    0 (of either sign); it truncates towards zero, so for a quotient that is
    not positive the count is the ceiling of the quotient, not its floor;
    an infinite quotient raises [OverflowError], a nan [ValueError]. *)
Theorem X10_step_count_errors_and_sign (T dt : float) :
  (PrimFloat.eqb dt 0%float = true ->
   Binary64.N_step T dt = Raise ZeroDivisionError) /\
  (forall v : Q,
     PrimFloat.eqb dt 0%float = false ->
     Binary64.value (PrimFloat.div T dt) = Some v -> v <= 0 ->
     Binary64.N_step T dt = Ok (Qceiling v)) /\
  (PrimFloat.eqb dt 0%float = false ->
   forall s, Prim2SF (PrimFloat.div T dt) = S754_infinity s ->
             Binary64.N_step T dt = Raise OverflowError) /\
  (PrimFloat.eqb dt 0%float = false ->
   Prim2SF (PrimFloat.div T dt) = S754_nan ->
   Binary64.N_step T dt = Raise ValueError).
Proof.
  split; [|split; [|split]].
  - intros H. unfold Binary64.N_step, Binary64.py_div. now rewrite H.
  - intros v Hdt Hv Hneg. rewrite b64_N_step_div by exact Hdt.
    now apply b64_int_ceiling.
  - intros Hdt s Hs. rewrite b64_N_step_div by exact Hdt.
    unfold Binary64.py_int. now rewrite Hs.
  - intros Hdt Hs. rewrite b64_N_step_div by exact Hdt.
    unfold Binary64.py_int. now rewrite Hs.
Qed.

Lemma X10_step_count_errors_and_sign_witness :
  Binary64.N_step 1%float (-0)%float = Raise ZeroDivisionError /\
  Binary64.N_step (-1)%float 0.1%float = Ok (-10)%Z /\
  Binary64.N_step 1e308%float 1e-308%float = Raise OverflowError /\
  Binary64.N_step infinity infinity = Raise ValueError.
Proof.
  destruct (X10_step_count_errors_and_sign 1%float (-0)%float) as (H0 & _).
  destruct (X10_step_count_errors_and_sign (-1)%float 0.1%float)
    as (_ & Hneg & _).
  destruct (X10_step_count_errors_and_sign 1e308%float 1e-308%float)
    as (_ & _ & Hinf & _).
  destruct (X10_step_count_errors_and_sign infinity infinity)
    as (_ & _ & _ & Hnan).
  split; [apply H0; reflexivity|].
  split; [refine (Hneg _ eq_refl eq_refl _); vm_compute; congruence|].
  split; [apply (Hinf eq_refl false); vm_compute; reflexivity|].
  apply Hnan; [reflexivity | vm_compute; reflexivity].
Defined.

(** ** The density profiles over the whole axis *)

Lemma lwfa_dens_at_mono rs rl p q :
  p <= q ->
  exists d e,
    LwfaDensity.dens_at rs rl (Float64.Finite p) = Float64.Finite d /\
    LwfaDensity.dens_at rs rl (Float64.Finite q) = Float64.Finite e /\
    d <= e.
Proof.
  intros Hpq. unfold LwfaDensity.dens_at. cbn [Float64.ltb Float64.sub].
  case_Qltb p rs; case_Qltb q rs; try lra.
  - do 2 eexists. repeat split; lra.
  - case_Qltb q (rs + rl).
    + cbn [Float64.div]. case_Qeqb rl 0; [lra|].
      do 2 eexists. split; [reflexivity|]. split; [reflexivity|].
      apply Qdiv_unit; lra.
    + do 2 eexists. repeat split; lra.
  - case_Qltb p (rs + rl); case_Qltb q (rs + rl); try lra.
    + cbn [Float64.div]. case_Qeqb rl 0; [lra|].
      do 2 eexists. split; [reflexivity|]. split; [reflexivity|].
      apply Qdiv_mono; lra.
    + cbn [Float64.div]. case_Qeqb rl 0; [lra|].
      do 2 eexists. split; [reflexivity|]. split; [reflexivity|].
      apply Qdiv_unit; lra.
    + do 2 eexists. repeat split; lra.
Qed.

Lemma calder_dens_at_mono z1 z2 z4 p q :
  p <= q -> q <= z4 ->
  exists d e,
    CalderDensity.dens_at z1 z2 z4 (Float64.Finite p) = Float64.Finite d /\
    CalderDensity.dens_at z1 z2 z4 (Float64.Finite q) = Float64.Finite e /\
    d <= e.
Proof.
  intros Hpq Hcut.
  rewrite !calder_matches_single_sided
    by (cbn [Float64.gtb]; apply Qltb_ge; lra).
  now apply lwfa_dens_at_mono.
Qed.

(** X12: the single-sided profile never decreases along the axis, whatever
    the ramp parameters are (also for a ramp of zero or negative length);
    the profile of [calder_experiment.py] never decreases up to the cut-off
    [z4]. *)
Theorem X12_density_never_decreases (z r : ndarray) (i j : nat) (p q : Q) :
  nth_error z i = Some (Float64.Finite p) ->
  nth_error z j = Some (Float64.Finite q) ->
  p <= q ->
  (forall rs rl,
     exists d e,
       nth_error (LwfaDensity.dens_func rs rl z r) i = Some (Float64.Finite d)
       /\ nth_error (LwfaDensity.dens_func rs rl z r) j
          = Some (Float64.Finite e)
       /\ d <= e) /\
  (forall z1 z2 z4, q <= z4 ->
     exists d e,
       nth_error (CalderDensity.dens_func z1 z2 z4 z r) i
       = Some (Float64.Finite d)
       /\ nth_error (CalderDensity.dens_func z1 z2 z4 z r) j
          = Some (Float64.Finite e)
       /\ d <= e).
Proof.
  intros Hp Hq Hpq. split.
  - intros rs rl.
    destruct (lwfa_dens_at_mono rs rl p q Hpq) as (d & e & Hd & He & Hde).
    exists d, e.
    rewrite (lwfa_dens_nth _ _ _ _ _ _ Hp), (lwfa_dens_nth _ _ _ _ _ _ Hq).
    now rewrite Hd, He.
  - intros z1 z2 z4 Hcut.
    destruct (calder_dens_at_mono z1 z2 z4 p q Hpq Hcut)
      as (d & e & Hd & He & Hde).
    exists d, e.
    rewrite (calder_dens_nth _ _ _ _ _ _ _ Hp),
      (calder_dens_nth _ _ _ _ _ _ _ Hq).
    now rewrite Hd, He.
Qed.

Lemma X12_density_never_decreases_witness :
  exists d e,
    nth_error (LwfaDensity.dens_func 0e-6 375e-6
                 [Float64.Finite (-5e-6); Float64.Finite 400e-6] []) 0
    = Some (Float64.Finite d)
    /\ nth_error (LwfaDensity.dens_func 0e-6 375e-6
                    [Float64.Finite (-5e-6); Float64.Finite 400e-6] []) 1
       = Some (Float64.Finite e)
    /\ d <= e.
Proof.
  destruct (X12_density_never_decreases
              [Float64.Finite (-5e-6); Float64.Finite 400e-6] [] 0 1
              (-5e-6) 400e-6 eq_refl eq_refl) as (H & _).
  - vm_compute. congruence.
  - apply H.
Defined.

(** X13: with a ramp length that is zero or negative the single-sided
    profile is the step at [ramp_start] (0 below it, 1 from it on), at
    every position, also at inf, -inf and nan; with [z2 <= z1] the profile
    of [calder_experiment.py] is the step at [z1], cut to 0 above [z4]. *)
Theorem X13_non_positive_ramp_is_a_step (z r : ndarray) :
  (forall rs rl, rl <= 0 ->
     LwfaDensity.dens_func rs rl z r = map (step_at rs) z) /\
  (forall z1 z2 z4, z2 <= z1 ->
     CalderDensity.dens_func z1 z2 z4 z r
     = map (fun x => if Float64.gtb x z4 then Float64.Finite 0
                     else step_at z1 x) z).
Proof.
  split.
  - intros rs rl Hrl. rewrite lwfa_dens_func_pointwise. apply map_ext.
    intros x. unfold LwfaDensity.dens_at, step_at.
    destruct x as [q| | |]; cbn [Float64.ltb]; try reflexivity.
    case_Qltb q rs; [reflexivity|].
    case_Qltb q (rs + rl); [lra|reflexivity].
  - intros z1 z2 z4 Hz. rewrite calder_dens_func_pointwise. apply map_ext.
    intros x. unfold CalderDensity.dens_at, step_at.
    destruct (Float64.gtb x z4); [reflexivity|].
    destruct x as [q| | |]; cbn [Float64.ltb]; try reflexivity.
    case_Qltb q z1; [reflexivity|].
    case_Qltb q z2; [lra|reflexivity].
Qed.

Lemma X13_non_positive_ramp_is_a_step_witness :
  LwfaDensity.dens_func 0 (-3)
    [Float64.Finite (-5); Float64.Finite (-1); Float64.Finite 2; Float64.NaN] []
  = map (step_at 0)
      [Float64.Finite (-5); Float64.Finite (-1); Float64.Finite 2; Float64.NaN].
Proof.
  destruct (X13_non_positive_ramp_is_a_step
              [Float64.Finite (-5); Float64.Finite (-1); Float64.Finite 2;
               Float64.NaN] []) as (H & _).
  apply H. vm_compute. congruence.
Defined.

(** ** The staircase, for every input *)

Section StaircaseMore.
Context {A : Type}.
Implicit Types a b l : list A.

Lemma interleave_perm a b :
  length a = length b -> Permutation (Histogram.interleave a b) (a ++ b).
Proof.
  revert b. induction a as [|x a IH]; intros [|y b] H; try discriminate;
    [constructor|].
  cbn [Histogram.interleave app]. constructor.
  etransitivity; [|apply Permutation_middle].
  constructor. apply IH. simpl in H. lia.
Qed.

Lemma x_axis_step (e0 e1 : A) l :
  Histogram.x_axis (e0 :: e1 :: l) = e0 :: e1 :: Histogram.x_axis (e1 :: l).
Proof.
  unfold Histogram.x_axis. rewrite !flatten_T_pair.
  change (removelast (e0 :: e1 :: l)) with (e0 :: removelast (e1 :: l)).
  reflexivity.
Qed.

Lemma x_axis_short l : (length l <= 1)%nat -> Histogram.x_axis l = [].
Proof.
  destruct l as [|e0 [|e1 l]]; cbn [length]; intros H; try reflexivity. lia.
Qed.
End StaircaseMore.

(** X14: for every pair of sequences, of whatever lengths, the abscissas of
    the staircase are a rearrangement of the left edges followed by the
    right edges, and the ordinates a rearrangement of the counts taken
    twice; there are [2 (len(edges) - 1)] abscissas (none for fewer than two
    edges) and [2 len(counts)] ordinates, so the two axes have one length
    exactly when there is one edge more than counts, or neither. *)
Theorem X14_staircase_rearranges {A : Type} (edges counts : list A) :
  Permutation (Histogram.x_axis edges) (removelast edges ++ tl edges) /\
  Permutation (Histogram.y_axis counts) (counts ++ counts) /\
  length (Histogram.x_axis edges) = (2 * (length edges - 1))%nat /\
  length (Histogram.y_axis counts) = (2 * length counts)%nat /\
  (length (Histogram.x_axis edges) = length (Histogram.y_axis counts)
   <-> (length edges - 1 = length counts)%nat).
Proof.
  unfold Histogram.x_axis, Histogram.y_axis. rewrite !flatten_T_pair.
  assert (Hlr : length (removelast edges) = length (tl edges)).
  { rewrite removelast_length. destruct edges; simpl; lia. }
  assert (Hx : length (Histogram.interleave (removelast edges) (tl edges))
               = (2 * (length edges - 1))%nat).
  { rewrite interleave_length by exact Hlr. now rewrite removelast_length. }
  assert (Hy : length (Histogram.interleave counts counts)
               = (2 * length counts)%nat)
    by now rewrite interleave_length.
  split; [now apply interleave_perm|].
  split; [now apply interleave_perm|].
  split; [exact Hx|]. split; [exact Hy|].
  rewrite Hx, Hy. lia.
Qed.

(** X15: the staircase keeps the order of the edges: if consecutive edges
    are related by a reflexive relation (ascending edges, with [<=]), so
    are consecutive abscissas. *)
Theorem X15_staircase_keeps_order {A : Type} (R : A -> A -> Prop)
        (edges : list A) :
  (forall a, R a a) -> Sorted R edges -> Sorted R (Histogram.x_axis edges).
Proof.
  intros Hrefl. induction edges as [|e0 edges IH]; intros Hs.
  - constructor.
  - destruct edges as [|e1 edges].
    + rewrite x_axis_short by (simpl; lia). constructor.
    + rewrite x_axis_step.
      apply Sorted_inv in Hs as [Hs Hhd]. apply HdRel_inv in Hhd.
      specialize (IH Hs).
      constructor; [|constructor; exact Hhd].
      constructor; [exact IH|].
      destruct edges as [|e2 edges].
      * rewrite x_axis_short by (simpl; lia). constructor.
      * rewrite x_axis_step. constructor. apply Hrefl.
Qed.

Lemma X15_staircase_keeps_order_witness :
  Sorted Z.le (Histogram.x_axis [1; 2; 3; 4]%Z).
Proof.
  apply X15_staircase_keeps_order.
  - intros a. lia.
  - repeat constructor; lia.
Defined.

(** ** The iteration that is analysed *)

Lemma py_index_last {A} (l : list A) (a : A) : py_index (l ++ [a]) (-1) = Ok a.
Proof.
  unfold py_index. rewrite length_app. cbn [length].
  replace (Z.of_nat (length l + 1) + -1)%Z with (Z.of_nat (length l)) by lia.
  cbn [Z.ltb Z.compare].
  destruct (Z.leb_spec 0 (Z.of_nat (length l))); [|lia].
  destruct (Z.ltb_spec (Z.of_nat (length l)) (Z.of_nat (length l + 1))); [|lia].
  cbn [andb]. rewrite Nat2Z.id, nth_error_app2 by lia.
  now rewrite Nat.sub_diag.
Qed.

Lemma sorted_last_is_max (l : list Z) (a : Z) :
  StronglySorted Z.le (l ++ [a]) -> Forall (fun k => (k <= a)%Z) (l ++ [a]).
Proof.
  induction l as [|x l IH]; cbn [app]; intros H.
  - repeat constructor. lia.
  - inversion H as [|? ? Hs Hf]; subst. constructor.
    + rewrite Forall_forall in Hf. apply Hf, in_or_app. right. now left.
    + now apply IH.
Qed.

(** X17: the script analyses the last entry of [time_series.iterations]:
    for a series that ends with [a] the iteration is [a], which is the
    highest iteration when the series is ascending; for an empty series the
    script fails with [IndexError]. *)
Theorem X17_analyses_last_iteration :
  ExtractHistogram.iteration [] = Raise IndexError /\
  (forall (l : list Z) (a : Z),
     ExtractHistogram.iteration (l ++ [a]) = Ok a /\
     (StronglySorted Z.le (l ++ [a]) ->
      Forall (fun k => (k <= a)%Z) (l ++ [a]))).
Proof.
  split; [reflexivity|]. intros l a. split.
  - apply py_index_last.
  - apply sorted_last_is_max.
Qed.

Lemma X17_analyses_last_iteration_witness :
  ExtractHistogram.iteration [0; 100; 200]%Z = Ok 200%Z /\
  Forall (fun k => (k <= 200)%Z) [0; 100; 200]%Z.
Proof.
  destruct X17_analyses_last_iteration as (_ & H).
  destruct (H [0; 100]%Z 200%Z) as (Hit & Hmax).
  split; [exact Hit|]. apply Hmax.
  repeat constructor; lia.
Defined.

(** ** The field slice and the imaginary parts *)

Lemma combine_map {A B C D} (f : A -> C) (g : B -> D) (l : list A) (l' : list B) :
  combine (map f l) (map g l') = map (fun '(x, y) => (f x, g y)) (combine l l').
Proof.
  revert l'. induction l as [|x l IH]; intros [|y l']; try reflexivity.
  cbn [map combine]. now rewrite IH.
Qed.

Lemma T_map {A B} (f : A -> B) (m : list (list A)) :
  Np2.T (map (map f) m) = map (map f) (Np2.T m).
Proof.
  induction m as [|row m IH]; [reflexivity|].
  destruct m as [|r2 m].
  - cbn [map Np2.T]. rewrite !map_map. reflexivity.
  - change (Np2.T (map (map f) (row :: r2 :: m)))
      with (map (fun '(x, col) => x :: col)
                (combine (map f row) (Np2.T (map (map f) (r2 :: m))))).
    change (Np2.T (row :: r2 :: m))
      with (map (fun '(x, col) => x :: col)
                (combine row (Np2.T (r2 :: m)))).
    rewrite IH, combine_map, !map_map. apply map_ext.
    intros [x col]. reflexivity.
Qed.

Lemma Er_T_real_drop_imag (g : grid) :
  FieldSlice.Er_T_real (drop_imag g) = FieldSlice.Er_T_real g.
Proof.
  unfold FieldSlice.Er_T_real, drop_imag, Np2.real_part. cbn [Er].
  rewrite T_map, map_map. apply map_ext. intros row.
  rewrite map_map. reflexivity.
Qed.

Lemma py_index_map {A B} (h : A -> B) (l : list A) (i : Z) :
  py_index (map h l) i
  = match py_index l i with Ok a => Ok (h a) | Raise e => Raise e end.
Proof.
  unfold py_index. rewrite length_map.
  destruct (_ && _)%bool; [|reflexivity].
  rewrite nth_error_map. now destruct (nth_error l _).
Qed.

Lemma fold_left_ext {A B} (f g : A -> B -> A) (l : list B) (a : A) :
  (forall x y, f x y = g x y) -> fold_left f l a = fold_left g l a.
Proof.
  intros H. revert a. induction l as [|b l IH]; intros a; [reflexivity|].
  cbn [fold_left]. now rewrite H, IH.
Qed.

(** X18: the field slice does not depend on the imaginary parts of the
    gathered fields: setting them all to zero changes neither the combined
    array nor the error, for every list of grids and every [Nm]. *)
Theorem X18_slice_ignores_imaginary_parts (gathered_grids : list grid) (Nm : Z) :
  FieldSlice.combine_modes (map drop_imag gathered_grids) Nm
  = FieldSlice.combine_modes gathered_grids Nm.
Proof.
  unfold FieldSlice.combine_modes. rewrite py_index_map.
  destruct (py_index gathered_grids 0) as [g0|e]; [|reflexivity].
  cbn [rbind]. rewrite Er_T_real_drop_imag.
  apply fold_left_ext. intros acc m. unfold FieldSlice.add_mode.
  destruct acc as [Er_acc|e]; [|reflexivity]. cbn [rbind].
  rewrite py_index_map.
  destruct (py_index gathered_grids m) as [g|e]; [|reflexivity].
  cbn [rbind]. now rewrite Er_T_real_drop_imag.
Qed.

(** X16: the loop over the modes starts at mode 1: with [Nm <= 1] the slice
    is the transposed real part of mode 0 as it is, with no factor and
    whatever other grids were gathered; with no grid at all the slice
    fails with [IndexError]. *)
Theorem X16_slice_of_mode_0_alone :
  (forall Nm, FieldSlice.combine_modes [] Nm = Raise IndexError) /\
  (forall g0 rest Nm, (Nm <= 1)%Z ->
     FieldSlice.combine_modes (g0 :: rest) Nm = Ok (FieldSlice.Er_T_real g0)).
Proof.
  split; [reflexivity|].
  intros g0 rest Nm HNm. unfold FieldSlice.combine_modes.
  assert (E0 : py_index (g0 :: rest) 0%Z = Ok g0)
    by exact (py_index_nat (g0 :: rest) 0 g0 eq_refl).
  rewrite E0. cbn [rbind]. now rewrite py_range_empty.
Qed.

Lemma X16_slice_of_mode_0_alone_witness :
  FieldSlice.combine_modes [sample_fld 0; sample_fld 1] 1
  = Ok (FieldSlice.Er_T_real (sample_fld 0)).
Proof.
  destruct X16_slice_of_mode_0_alone as (_ & H).
  apply H. lia.
Defined.
